(** * The kpt deployer of skaffold (pkg/skaffold/deploy/kpt.go)

    A shallow embedding of the kpt deployer: the argument vector builder,
    the function-annotation filter, the dependency resolver, the
    apply-directory resolver and the hydration pipeline, followed by the
    properties stated about them.

    Go strings and byte slices are sequences of bytes; both are modelled by
    [string] (a list of 8-bit characters).  A Go function that returns
    [(T, error)] returns a pair of a value and an [option error] here, with
    [None] for the nil error and the empty list for a nil slice. *)

From Stdlib Require Import Strings.String Strings.Ascii Lists.List Bool.Bool Arith.PeanoNat.
From stdpp Require Import base option list strings gmap.

Open Scope string_scope.
Open Scope list_scope.

(** ** Part I: the model *)

(** *** Go's [strings] package *)

Module strings.

(** [strings.Split(s, sep)] for a separator of one byte: the pieces of [s]
    between the occurrences of [sep].  The result has one more element than
    [s] has separators, so splitting the empty string gives one empty
    piece. *)
Fixpoint Split (s : string) (sep : ascii) : list string :=
  match s with
  | EmptyString => [EmptyString]
  | String c rest =>
      if Ascii.eqb c sep then EmptyString :: Split rest sep
      else match Split rest sep with
           | piece :: pieces => String c piece :: pieces
           | [] => [String c EmptyString]
           end
  end.

(** [strings.Join(elems, sep)]. *)
Fixpoint Join (elems : list string) (sep : string) : string :=
  match elems with
  | [] => EmptyString
  | [e] => e
  | e :: rest => e +:+ sep +:+ Join rest sep
  end.

(** [strings.IndexByte(s, c) >= 0]. *)
Fixpoint ContainsByte (s : string) (c : ascii) : bool :=
  match s with
  | EmptyString => false
  | String d rest => Ascii.eqb d c || ContainsByte rest c
  end.

End strings.

(** *** Errors *)

(** The error numbers the file system model reports. *)
Inductive Errno := ENOENT | ENOTDIR | EINVAL | ENAMETOOLONG.

Definition Errno_eq_dec (a b : Errno) : {a = b} + {a <> b}.
Proof. decide equality. Defined.

(** Go [error] values: [errors.New] strings, [fmt.Errorf] wrappers (the
    message up to its [": %w"] verb, arguments filled in, and the wrapped
    error), [*os.PathError], the sentinel [filepath.SkipDir], and errors
    handed back by external collaborators (sub-processes, the YAML and JSON
    libraries). *)
Inductive error :=
| ErrorString (msg : string)
| WrapError (msg : string) (err : error)
| PathError (op path : string) (errno : Errno)
| SkipDir
| ExternalError (msg : string).

Module errors.
Definition New (msg : string) : error := ErrorString msg.

(** [errors.Is(err, os.ErrNotExist)]: follows the [%w] chain. *)
Fixpoint IsNotExist (err : error) : bool :=
  match err with
  | PathError _ _ ENOENT => true
  | WrapError _ wrapped => IsNotExist wrapped
  | _ => false
  end.
End errors.

Module fmt.
(** [fmt.Errorf(msg + ": %w", err)] *)
Definition Errorf (msg : string) (err : error) : error := WrapError msg err.
End fmt.

(** A call that returns either a value or an error, never both. *)
Definition result (A : Type) : Type := (A + error)%type.

(** The error result of such a call, [None] for nil. *)
Definition errOf {A : Type} (r : result A) : option error :=
  match r with
  | inl _ => None
  | inr err => Some err
  end.

Definition bytes := string.

(** [len(x) > 0] on strings and on slices. *)
Definition nonEmpty (s : string) : bool := (0 <? String.length s)%nat.
Definition nonEmptyList {A} (l : list A) : bool := (0 <? List.length l)%nat.

(** *** Go's [path/filepath] package, lexical part (Unix) *)

Definition slash : ascii := "/"%char.
Definition space : ascii := " "%char.

Module filepath.

Definition isRooted (path : string) : bool :=
  match path with
  | String c _ => Ascii.eqb c slash
  | EmptyString => false
  end.

(** The path elements [Clean] keeps, from the elements between the
    slashes: empty elements and [.] are dropped, [..] removes the element
    before it, or is dropped at the root, or is kept at the start of a
    relative path.  [kept] is the result so far, last element first. *)
Fixpoint cleanElems (elems : list string) (rooted : bool) (kept : list string)
  : list string :=
  match elems with
  | [] => rev kept
  | e :: rest =>
      if String.eqb e "" || String.eqb e "." then cleanElems rest rooted kept
      else if String.eqb e ".." then
        match kept with
        | top :: below =>
            if String.eqb top ".." then cleanElems rest rooted (".." :: kept)
            else cleanElems rest rooted below
        | [] => cleanElems rest rooted (if rooted then [] else [".."])
        end
      else cleanElems rest rooted (e :: kept)
  end.

(** [filepath.Clean]: the shortest path name equivalent to [path] by
    purely lexical processing. *)
Definition Clean (path : string) : string :=
  let rooted := isRooted path in
  let body := strings.Join (cleanElems (strings.Split path slash) rooted []) "/" in
  if rooted then "/" +:+ body
  else if String.eqb body "" then "." else body.

(** [filepath.Join(a, b)]: empty elements are ignored, the rest is joined
    by slashes and cleaned. *)
Definition Join (a b : string) : string :=
  if String.eqb a "" then (if String.eqb b "" then "" else Clean b)
  else Clean (a +:+ "/" +:+ b).

(** [filepath.Base]: the last element of [path], trailing slashes
    removed; [.] for the empty path and [/] for a path of slashes only. *)
Definition Base (path : string) : string :=
  if String.eqb path "" then "."
  else match rev (List.filter nonEmpty (strings.Split path slash)) with
       | last :: _ => last
       | [] => "/"
       end.

End filepath.

(** *** Go's [regexp] package *)

Module regexp.

(** [regexp.MatchString(`\.ya?ml$`, s)]: an occurrence of [.yml] or
    [.yaml] anywhere in [s] that ends at the end of [s].  The pattern is
    valid, so the error result is always nil. *)
Fixpoint matchYamlSuffix (s : string) : bool :=
  match s with
  | EmptyString => false
  | String c rest =>
      (Ascii.eqb c "."%char && (String.eqb rest "yaml" || String.eqb rest "yml"))
      || matchYamlSuffix rest
  end.

Definition MatchString_yaml (s : string) : bool * option error :=
  (matchYamlSuffix s, None).

End regexp.

(** *** The file system *)

Set Warnings "-register-all".

(** A file system tree without symbolic links and without permissions:
    regular files and directories.  The entries of a directory are kept in
    the order [readDirNames] returns them, sorted by name.  Path resolution
    knows the two length limits of the system: a name of more than
    [NAME_MAX] bytes and a path of [PATH_MAX] bytes or more are refused
    with [ENAMETOOLONG]. *)
Inductive node :=
| FileNode (content : bytes)
| DirNode (entries : list (string * node)).

Definition isDir (n : node) : bool :=
  match n with DirNode _ => true | FileNode _ => false end.

Fixpoint lookupEntry (name : string) (entries : list (string * node)) : option node :=
  match entries with
  | [] => None
  | (n, child) :: rest => if String.eqb n name then Some child else lookupEntry name rest
  end.

(** Insert or replace an entry, keeping the names sorted. *)
Fixpoint insertEntry (name : string) (child : node) (entries : list (string * node))
  : list (string * node) :=
  match entries with
  | [] => [(name, child)]
  | (n, c) :: rest =>
      if String.eqb n name then (name, child) :: rest
      else if String.ltb name n then (name, child) :: entries
      else (n, c) :: insertEntry name child rest
  end.

Fixpoint removeEntry (name : string) (entries : list (string * node))
  : list (string * node) :=
  match entries with
  | [] => []
  | (n, c) :: rest =>
      if String.eqb n name then removeEntry name rest else (n, c) :: removeEntry name rest
  end.

(** The node at a location, a list of names leading down from [t]. *)
Fixpoint nodeAt (t : node) (loc : list string) : option node :=
  match loc with
  | [] => Some t
  | name :: rest =>
      match t with
      | DirNode entries =>
          match lookupEntry name entries with
          | Some child => nodeAt child rest
          | None => None
          end
      | FileNode _ => None
      end
  end.

(** Change the entries of the directory at a location. *)
Fixpoint updateDirAt (t : node) (loc : list string)
  (f : list (string * node) -> list (string * node)) : node :=
  match t with
  | FileNode _ => t
  | DirNode entries =>
      match loc with
      | [] => DirNode (f entries)
      | name :: rest =>
          DirNode (List.map (fun entry : string * node =>
                          if String.eqb (fst entry) name
                          then (fst entry, updateDirAt (snd entry) rest f)
                          else entry) entries)
      end
  end.

(** The file system: the tree from the root directory and the location of
    the working directory in it. *)
Record FS := { root : node; cwd : list string }.

(** The longest name of a directory entry, and the length no path may
    reach, in bytes. *)
Definition NAME_MAX : nat := 255.
Definition PATH_MAX : nat := 4096.

Definition nameTooLong (name : string) : bool := (NAME_MAX <? String.length name)%nat.
Definition pathTooLong (bytes : nat) : bool := (PATH_MAX <=? bytes)%nat.

Arguments nameTooLong : simpl never.
Arguments pathTooLong : simpl never.

(** Path resolution: follow the elements of a path from a location.
    Every step needs a directory to step from, and a name that is too long
    is refused before it is looked up. *)
Fixpoint walkPath (t : node) (loc : list string) (elems : list string)
  : list string + Errno :=
  match elems with
  | [] => inl loc
  | e :: rest =>
      match nodeAt t loc with
      | Some (DirNode entries) =>
          if String.eqb e "" || String.eqb e "." then walkPath t loc rest
          else if String.eqb e ".." then walkPath t (removelast loc) rest
          else if nameTooLong e then inr ENAMETOOLONG
          else match lookupEntry e entries with
               | Some _ => walkPath t (loc ++ [e]) rest
               | None => inr ENOENT
               end
      | Some (FileNode _) => inr ENOTDIR
      | None => inr ENOENT
      end
  end.

Definition startOf (fs : FS) (path : string) : list string :=
  if filepath.isRooted path then [] else cwd fs.

Definition resolve (fs : FS) (path : string) : (list string * node) + Errno :=
  if String.eqb path "" then inr ENOENT
  else if pathTooLong (String.length path) then inr ENAMETOOLONG
  else match walkPath (root fs) (startOf fs path) (strings.Split path slash) with
       | inl loc =>
           match nodeAt (root fs) loc with
           | Some n => inl (loc, n)
           | None => inr ENOENT
           end
       | inr errno => inr errno
       end.

Record FileInfo := { IsDir : bool }.

Module os.

(** [os.Stat]; without symbolic links [os.Lstat] is the same. *)
Definition Stat (path : string) (fs : FS) : result FileInfo :=
  match resolve fs path with
  | inl (_, n) => inl {| IsDir := isDir n |}
  | inr errno => inr (PathError "stat" path errno)
  end.

Definition Lstat (path : string) (fs : FS) : result FileInfo :=
  match resolve fs path with
  | inl (_, n) => inl {| IsDir := isDir n |}
  | inr errno => inr (PathError "lstat" path errno)
  end.

(** [os.IsNotExist] looks inside a [PathError] but not inside a
    [fmt.Errorf] wrapper. *)
Definition IsNotExist (err : option error) : bool :=
  match err with
  | Some (PathError _ _ ENOENT) => true
  | _ => false
  end.

(** The separators that follow an element before the next one begins,
    less one: the empty elements at the head of the rest of the path. *)
Fixpoint emptyElems (elems : list string) : nat :=
  match elems with
  | e :: rest => if String.eqb e "" then S (emptyElems rest) else 0
  | [] => 0
  end.

(** [os.MkdirAll]: create the directories along [path] that are missing.
    Directories created before a failing step stay.  [MkdirAll] makes the
    parent first and then calls [Mkdir] on the path up to the element at
    hand, [offset] bytes and the element and the separators after it but
    one: when that reaches [PATH_MAX], or the name is too long, the call
    fails there. *)
Fixpoint mkdirAllFrom (t : node) (loc : list string) (offset : nat) (elems : list string)
  : node * option Errno :=
  match nodeAt t loc with
  | Some (DirNode entries) =>
      match elems with
      | [] => (t, None)
      | e :: rest =>
          let next := (offset + String.length e + 1)%nat in
          if String.eqb e "" then mkdirAllFrom t loc next rest
          else if pathTooLong (offset + String.length e + emptyElems rest)
          then (t, Some ENAMETOOLONG)
          else if String.eqb e "." then mkdirAllFrom t loc next rest
          else if String.eqb e ".." then mkdirAllFrom t (removelast loc) next rest
          else if nameTooLong e then (t, Some ENAMETOOLONG)
          else match lookupEntry e entries with
               | Some _ => mkdirAllFrom t (loc ++ [e]) next rest
               | None =>
                   mkdirAllFrom (updateDirAt t loc (insertEntry e (DirNode [])))
                                (loc ++ [e]) next rest
               end
      end
  | Some (FileNode _) => (t, Some ENOTDIR)
  | None => (t, Some ENOENT)
  end.

Definition MkdirAll (path : string) (fs : FS) : option error * FS :=
  if String.eqb path "" then (Some (PathError "mkdir" path ENOENT), fs)
  else
    match mkdirAllFrom (root fs) (startOf fs path) 0 (strings.Split path slash) with
    | (t, None) => (None, {| root := t; cwd := cwd fs |})
    | (t, Some errno) => (Some (PathError "mkdir" path errno), {| root := t; cwd := cwd fs |})
    end.

(** [endsWithDot]: the path is [.] or ends in [/.]. *)
Definition endsWithDot (path : string) : bool :=
  match rev (list_ascii_of_string path) with
  | c :: rest =>
      Ascii.eqb c "."%char &&
      match rest with
      | [] => true
      | d :: _ => Ascii.eqb d slash
      end
  | [] => false
  end.

(** [os.RemoveAll]: remove [path] and what is below it; a path that does
    not exist is not an error. *)
Definition RemoveAll (path : string) (fs : FS) : option error * FS :=
  if String.eqb path "" then (None, fs)
  else if endsWithDot path then (Some (PathError "RemoveAll" path EINVAL), fs)
  else
    match resolve fs path with
    | inl (loc, _) =>
        match rev loc with
        | [] => (Some (PathError "unlinkat" path EINVAL), fs)
        | name :: parent =>
            (None, {| root := updateDirAt (root fs) (rev parent) (removeEntry name);
                      cwd := cwd fs |})
        end
    | inr ENOENT => (None, fs)
    | inr errno => (Some (PathError "unlinkat" path errno), fs)
    end.

End os.

(** *** [filepath.Walk] *)

(** A Go call either returns or panics. *)
Inductive outcome (A : Type) :=
| Returned (a : A)
| Panicked.

Arguments Returned {A} a.
Arguments Panicked {A}.

Section Walk.

Context {St : Type}.

(** The [WalkFunc], with the variables it captures passed as a state.  The
    [FileInfo] is nil when [Lstat] failed. *)
Variable walkFn : string -> option FileInfo -> option error -> St -> outcome (option error * St).

Definition isSkipDir (err : error) : bool :=
  match err with SkipDir => true | _ => false end.

(** [walk] of path/filepath: the function is called on the node, then on
    the entries of a directory in the order of their names.  Reading a
    directory of the tree and [lstat] on its entries cannot fail. *)
Fixpoint walk (path : string) (n : node) (st : St) {struct n}
  : outcome (option error * St) :=
  match n with
  | FileNode _ => walkFn path (Some {| IsDir := false |}) None st
  | DirNode entries =>
      match walkFn path (Some {| IsDir := true |}) None st with
      | Panicked => Panicked
      | Returned (Some err1, st1) => Returned (Some err1, st1)
      | Returned (None, st1) =>
          (fix walkEntries (entries : list (string * node)) (st : St)
             : outcome (option error * St) :=
             match entries with
             | [] => Returned (None, st)
             | (name, child) :: rest =>
                 let filename := filepath.Join path name in
                 match walk filename child st with
                 | Panicked => Panicked
                 | Returned (Some err, st') =>
                     if isDir child && isSkipDir err then walkEntries rest st'
                     else Returned (Some err, st')
                 | Returned (None, st') => walkEntries rest st'
                 end
             end) entries st1
      end
  end.

(** [filepath.Walk(root, walkFn)] *)
Definition Walk (root : string) (fs : FS) (st : St) : outcome (option error * St) :=
  let r :=
    match resolve fs root with
    | inr errno => walkFn root None (Some (PathError "lstat" root errno)) st
    | inl (_, n) => walk root n st
    end in
  match r with
  | Returned (Some SkipDir, st') => Returned (None, st')
  | _ => r
  end.

End Walk.

(** *** getResources *)

(** The function literal passed to [filepath.Walk] in [getResources]; its
    state is the captured slice [files].  The third parameter is ignored,
    and [info.IsDir()] on a nil [info] panics. *)
Definition getResources_walkFn (path : string) (info : option FileInfo)
  (_ : option error) (files : list string) : outcome (option error * list string) :=
  let '(isResource, err) := regexp.MatchString_yaml (filepath.Base path) in
  match err with
  | Some err =>
      Returned (Some (fmt.Errorf ("matching " +:+ filepath.Base path +:+ " with regex") err),
                files)
  | None =>
      match info with
      | None => Panicked
      | Some info =>
          if negb (IsDir info) && isResource
          then Returned (None, files ++ [path])
          else Returned (None, files)
      end
  end.

(** [getResources] returns a list of all file names in root that end in
    .yaml or .yml *)
Definition getResources (root : string) (fs : FS) : outcome (list string * option error) :=
  let files := [] in
  let err := errOf (os.Stat root fs) in
  if os.IsNotExist err then Returned ([], err)
  else
    match Walk getResources_walkFn root fs files with
    | Panicked => Panicked
    | Returned (err, files) => Returned (files, err)
    end.

(** **** Vocabulary for the properties of the resolver *)

(** The loop of [walk] over the entries of a directory, on its own. *)
Fixpoint walkEntries {St : Type}
  (walkFn : string -> option FileInfo -> option error -> St -> outcome (option error * St))
  (path : string) (entries : list (string * node)) (st : St)
  : outcome (option error * St) :=
  match entries with
  | [] => Returned (None, st)
  | (name, child) :: rest =>
      match walk walkFn (filepath.Join path name) child st with
      | Panicked => Panicked
      | Returned (Some err, st') =>
          if isDir child && isSkipDir err then walkEntries walkFn path rest st'
          else Returned (Some err, st')
      | Returned (None, st') => walkEntries walkFn path rest st'
      end
  end.

(** The name of a directory entry: not empty, without a slash, and neither
    [.] nor [..]. *)
Definition validName (name : string) : bool :=
  nonEmpty name && negb (strings.ContainsByte name slash)
  && negb (String.eqb name ".") && negb (String.eqb name "..").


(** [fileAt n names]: following [names] down from [n] leads to a node that
    is not a directory. *)
Inductive fileAt : node -> list string -> Prop :=
| fileAt_here content : fileAt (FileNode content) []
| fileAt_below entries name child names :
    In (name, child) entries ->
    fileAt child names ->
    fileAt (DirNode entries) (name :: names).

(** The path [Walk] builds for the node [names] below [root]. *)
Definition pathOf (root : string) (names : list string) : string :=
  fold_left filepath.Join names root.


(** The resources [walk] finds from a node at a path: the files below the
    node whose path has a base name that matches. *)
Definition found (n : node) (path : string) (p : string) : Prop :=
  exists names,
    fileAt n names /\
    regexp.matchYamlSuffix (filepath.Base (pathOf path names)) = true /\
    p = pathOf path names.

(** [os.Stat] reports that the path does not exist ([ENOENT]): resolving it
    reaches a directory that has no entry of the name looked for.  A path
    that leads through a regular file, or that is too long, is not there
    either, but [os.Stat] fails on it with another error: it is neither
    [missing] nor [present]. *)
Definition missing (path : string) (fs : FS) : Prop :=
  resolve fs path = inr ENOENT.

(** The path exists. *)
Definition present (path : string) (fs : FS) : Prop :=
  exists loc n, resolve fs path = inl (loc, n).

(** *** The deployer's configuration *)

(** The configuration types are declared in pkg/skaffold/schema/latest;
    the fields below are the ones kpt.go reads. *)
Module KptFn.
Record t := {
  FnPath : string;
  Image : string;
  NetworkName : string;
  GlobalScope : bool;
  Network : bool;
  Mount : list string
}.
End KptFn.

Module KptApplyInventory.
Record t := {
  Dir : string;
  InventoryID : string;
  InventoryNamespace : string
}.
End KptApplyInventory.

Module KptApplyOptions.
Record t := {
  PollPeriod : string;
  PrunePropagationPolicy : string;
  PruneTimeout : string;
  ReconcileTimeout : string
}.
End KptApplyOptions.

Module KptLive.
Record t := {
  Apply : KptApplyInventory.t;
  Options : KptApplyOptions.t
}.
End KptLive.

Module KptDeploy.
Record t := {
  Dir : string;
  Fn : KptFn.t;
  Live : KptLive.t
}.
End KptDeploy.

(** [KptDeployer] deploys workflows with kpt CLI *)
Record KptDeployer := {
  KptDeploy_ : KptDeploy.t;
  insecureRegistries : gmap string bool;
  labels : gmap string string;
  globalConfig : string
}.

Definition k_Dir (k : KptDeployer) : string := KptDeploy.Dir (KptDeploy_ k).
Definition k_Fn (k : KptDeployer) : KptFn.t := KptDeploy.Fn (KptDeploy_ k).
Definition k_Live (k : KptDeployer) : KptLive.t := KptDeploy.Live (KptDeploy_ k).

Definition inventoryTemplate : string := "inventory-template.yaml".
Definition kptHydrated : string := ".kpt-hydrated".
Definition pipeline : string := ".pipeline".
Definition kptFnAnnotation : string := "config.kubernetes.io/function".
Definition kptFnLocalConfig : string := "config.kubernetes.io/local-config".

(** *** kptCommandArgs *)

(** One loop
    [for _, v := range vs { args = append(args, strings.Split(v, " ")...) }]. *)
Definition appendSplit (args : list string) (vs : list string) : list string :=
  fold_left (fun args v => args ++ strings.Split v space) vs args.

(** [kptCommandArgs] returns a list of additional arguments for the kpt
    command. *)
Definition kptCommandArgs (dir : string) (commands flags globalFlags : list string)
  : list string :=
  let args := [] in
  let args := appendSplit args commands in
  let args := if nonEmpty dir then args ++ [dir] else args in
  let args := appendSplit args flags in
  let args := appendSplit args globalFlags in
  args.

(** *** The flag lists *)

(** [getKptFnRunArgs] returns a list of arguments that the user specified
    for the `kpt fn run` command. *)
Definition getKptFnRunArgs (k : KptDeployer) : list string * option error :=
  let flags := ["--dry-run"] in
  let flags := if KptFn.GlobalScope (k_Fn k) then flags ++ ["--global-scope"] else flags in
  let flags :=
    if nonEmptyList (KptFn.Mount (k_Fn k))
    then flags ++ ["--mount"; strings.Join (KptFn.Mount (k_Fn k)) ","]
    else flags in
  let flags := if KptFn.Network (k_Fn k) then flags ++ ["--network"] else flags in
  let flags :=
    if nonEmpty (KptFn.NetworkName (k_Fn k))
    then flags ++ ["--network-name"; KptFn.NetworkName (k_Fn k)]
    else flags in
  let count := 0%nat in
  let '(flags, count) :=
    if nonEmpty (KptFn.FnPath (k_Fn k))
    then (flags ++ ["--fn-path"; KptFn.FnPath (k_Fn k)], S count)
    else (flags, count) in
  let '(flags, count) :=
    if nonEmpty (KptFn.Image (k_Fn k))
    then (flags ++ ["--image"; KptFn.Image (k_Fn k)], S count)
    else (flags, count) in
  if (1 <? count)%nat
  then ([], Some (errors.New "only one of `fn-path` or `image` may be specified"))
  else (flags, None).

(** [getKptLiveApplyArgs] returns a list of arguments that the user
    specified for the `kpt live apply` command. *)
Definition getKptLiveApplyArgs (k : KptDeployer) : list string :=
  let o := KptLive.Options (k_Live k) in
  let flags := [] in
  let flags :=
    if nonEmpty (KptApplyOptions.PollPeriod o)
    then flags ++ ["--poll-period"; KptApplyOptions.PollPeriod o] else flags in
  let flags :=
    if nonEmpty (KptApplyOptions.PrunePropagationPolicy o)
    then flags ++ ["--prune-propagation-policy"; KptApplyOptions.PrunePropagationPolicy o]
    else flags in
  let flags :=
    if nonEmpty (KptApplyOptions.PruneTimeout o)
    then flags ++ ["--prune-timeout"; KptApplyOptions.PruneTimeout o] else flags in
  let flags :=
    if nonEmpty (KptApplyOptions.ReconcileTimeout o)
    then flags ++ ["--reconcile-timeout"; KptApplyOptions.ReconcileTimeout o] else flags in
  flags.

(** [getKptLiveInitArgs] returns a list of arguments that the user
    specified for the `kpt live init` command. *)
Definition getKptLiveInitArgs (k : KptDeployer) : list string :=
  let a := KptLive.Apply (k_Live k) in
  let flags := [] in
  let flags :=
    if nonEmpty (KptApplyInventory.InventoryID a)
    then flags ++ ["--inventory-id"; KptApplyInventory.InventoryID a] else flags in
  let flags :=
    if nonEmpty (KptApplyInventory.InventoryNamespace a)
    then flags ++ ["--namespace"; KptApplyInventory.InventoryNamespace a] else flags in
  flags.

(** *** The dependency set *)

(** Modelled from the spec: the [stringSet] helper ([newStringSet],
    [insert], [toList]) is declared elsewhere in package deploy and is not
    part of the sources at hand.  The dependency set is a deduplicated,
    sorted collection of paths: it is kept here as a sorted list without
    repetitions. *)
Module stringSet.

Definition t := list string.

Fixpoint insertOne (s : string) (set : t) : t :=
  match set with
  | [] => [s]
  | x :: rest =>
      if String.eqb x s then set
      else if String.ltb s x then s :: set
      else x :: insertOne s rest
  end.

(** [set.insert(strs...)] *)
Definition insert (set : t) (strs : list string) : t :=
  fold_left (fun set s => insertOne s set) strs set.

(** [set.toList()] *)
Definition toList (set : t) : list string := set.

End stringSet.

Definition newStringSet : stringSet.t := [].

Section Dependencies.

(** [dependenciesForKustomization], of kustomize.go in package deploy (not
    part of the sources at hand): the paths a kustomization configuration
    directly under the directory refers to. *)
Variable dependenciesForKustomization : string -> FS -> list string * option error.

(** [Dependencies] returns a list of files that the deployer depends on.
    This does NOT include applyDir. *)
Definition Dependencies (k : KptDeployer) (fs : FS) : outcome (list string * option error) :=
  let deps := newStringSet in
  let deps :=
    if nonEmpty (KptFn.FnPath (k_Fn k)) then stringSet.insert deps [KptFn.FnPath (k_Fn k)] else deps in
  match getResources (k_Dir k) fs with
  | Panicked => Panicked
  | Returned (configDeps, Some err) =>
      Returned ([], Some (fmt.Errorf ("finding dependencies in " +:+ k_Dir k) err))
  | Returned (configDeps, None) =>
      let deps := stringSet.insert deps configDeps in
      match dependenciesForKustomization (k_Dir k) fs with
      | (kustomizeDeps, Some err) =>
          Returned ([], Some (fmt.Errorf ("finding kustomization directly under "
                                          +:+ k_Dir k) err))
      | (kustomizeDeps, None) =>
          let deps := stringSet.insert deps kustomizeDeps in
          Returned (stringSet.toList deps, None)
      end
  end.

End Dependencies.

(** *** Manifest lists and the function-annotation filter *)

(** [deploy.ManifestList] is [[][]byte]. *)
Definition ManifestList := list bytes.

(** The YAML and JSON libraries the deployer calls ([sigs.k8s.io/yaml] and
    the [unstructured] package of [k8s.io/apimachinery]), and the document
    splitter behind [ManifestList.Append]. *)
Record ManifestLib := {
  Unstructured : Type;
  (** [k8syaml.YAMLToJSON]: the JSON bytes and the conversion error. *)
  YAMLToJSON : bytes -> bytes * option error;
  (** [obj.UnmarshalJSON(b)] on a fresh object. *)
  UnmarshalJSON : bytes -> result Unstructured;
  (** [obj.GetAnnotations()]; a nil map is the empty map. *)
  GetAnnotations : Unstructured -> gmap string string;
  SetAnnotations : Unstructured -> gmap string string -> Unstructured;
  MarshalJSON : Unstructured -> result bytes;
  JSONToYAML : bytes -> result bytes;
  (** The documents [ManifestList.Append] finds in a buffer. *)
  splitManifest : bytes -> list bytes
}.

Section Filter.

Variable lib : ManifestLib.

(** Modelled from the spec: [ManifestList.Append] lives in
    pkg/skaffold/deploy/kubectl/manifests.go, which is not part of the
    sources at hand.  A manifest document set is an ordered sequence of
    documents; appending a buffer adds the documents of the buffer at the
    end, in order. *)
Definition Append (l : ManifestList) (buf : bytes) : ManifestList :=
  l ++ splitManifest lib buf.

(** The loop [for _, yByte := range manifest] of [ExcludeKptFn], with
    [newManifest] as accumulator.  Every error return of the source is
    [return nil, err]. *)
Fixpoint ExcludeKptFn_loop (manifest : ManifestList) (newManifest : ManifestList)
  : ManifestList * option error :=
  match manifest with
  | [] => (newManifest, None)
  | yByte :: rest =>
      (* jByte, _ := k8syaml.YAMLToJSON(yByte) *)
      let jByte := fst (YAMLToJSON lib yByte) in
      match UnmarshalJSON lib jByte with
      | inr err => ([], Some (fmt.Errorf "unmarshaling config" err))
      | inl obj =>
          (* skip if the resource is not kpt fn config. *)
          match GetAnnotations lib obj !! kptFnAnnotation with
          | None => ExcludeKptFn_loop rest (newManifest ++ [yByte])
          | Some _ =>
              (* skip if the kpt fn has local-config annotation specified. *)
              match GetAnnotations lib obj !! kptFnLocalConfig with
              | Some _ => ExcludeKptFn_loop rest (newManifest ++ [yByte])
              | None =>
                  (* Add "local-config" annotation to kpt fn config. *)
                  let anns := GetAnnotations lib obj in
                  let anns := <[kptFnLocalConfig := "true"]> anns in
                  let obj := SetAnnotations lib obj anns in
                  match MarshalJSON lib obj with
                  | inr err => ([], Some (fmt.Errorf "marshaling to json" err))
                  | inl jByte =>
                      match JSONToYAML lib jByte with
                      | inr err => ([], Some (fmt.Errorf "converting json to yaml" err))
                      | inl newYByte =>
                          ExcludeKptFn_loop rest (Append newManifest newYByte)
                      end
                  end
              end
          end
      end
  end.

(** [ExcludeKptFn] adds an annotation
    [config.kubernetes.io/local-config: 'true'] to kpt function. *)
Definition ExcludeKptFn (manifest : ManifestList) : ManifestList * option error :=
  ExcludeKptFn_loop manifest [].

(** **** Vocabulary for the properties of the filter *)

(** Reading a document as the filter does: YAML to JSON with the
    conversion error dropped, then [UnmarshalJSON]. *)
Definition decode (yByte : bytes) : result (Unstructured lib) :=
  UnmarshalJSON lib (fst (YAMLToJSON lib yByte)).

(** A document the filter has nothing to add to: it decodes, and either has
    no function annotation or has a local-config annotation already. *)
Definition kept (yByte : bytes) : Prop :=
  exists obj, decode yByte = inl obj /\
    (GetAnnotations lib obj !! kptFnAnnotation = None \/
     is_Some (GetAnnotations lib obj !! kptFnLocalConfig)).

(** The function configuration with the local-config annotation added, as
    the filter serializes it. *)
Definition reserialize (obj : Unstructured lib) : result bytes :=
  match MarshalJSON lib
          (SetAnnotations lib obj
             (<[kptFnLocalConfig := "true"]> (GetAnnotations lib obj))) with
  | inr err => inr (fmt.Errorf "marshaling to json" err)
  | inl jByte =>
      match JSONToYAML lib jByte with
      | inr err => inr (fmt.Errorf "converting json to yaml" err)
      | inl newYByte => inl newYByte
      end
  end.

(** The documents one input document contributes to the output. *)
Definition filterOne (yByte : bytes) : result (list bytes) :=
  match decode yByte with
  | inr err => inr (fmt.Errorf "unmarshaling config" err)
  | inl obj =>
      match GetAnnotations lib obj !! kptFnAnnotation,
            GetAnnotations lib obj !! kptFnLocalConfig with
      | None, _ | Some _, Some _ => inl [yByte]
      | Some _, None =>
          match reserialize obj with
          | inr err => inr err
          | inl newYByte => inl (splitManifest lib newYByte)
          end
      end
  end.

(** The whole run, document by document: the first failing document decides
    the error, otherwise the contributions are concatenated. *)
Fixpoint filterAll (manifest : ManifestList) : result (list bytes) :=
  match manifest with
  | [] => inl []
  | yByte :: rest =>
      match filterOne yByte with
      | inr err => inr err
      | inl docs =>
          match filterAll rest with
          | inr err => inr err
          | inl out => inl (docs ++ out)
          end
      end
  end.

(** The contract of the libraries that the filter relies on when it is
    applied to its own output: a function configuration that was given the
    local-config annotation and serialized is one document, and reading it
    back gives an object with the annotations it was serialized with. *)
Definition serializationRoundTrip : Prop :=
  forall obj newYByte,
    is_Some (GetAnnotations lib obj !! kptFnAnnotation) ->
    GetAnnotations lib obj !! kptFnLocalConfig = None ->
    reserialize obj = inl newYByte ->
    splitManifest lib newYByte = [newYByte] /\
    exists obj',
      decode newYByte = inl obj' /\
      GetAnnotations lib obj' = <[kptFnLocalConfig := "true"]> (GetAnnotations lib obj).

End Filter.

(** The same libraries with the error result of [YAMLToJSON] erased. *)
Definition withoutYAMLError (lib : ManifestLib) : ManifestLib :=
  {| Unstructured := Unstructured lib;
     YAMLToJSON := fun yByte => (fst (YAMLToJSON lib yByte), None);
     UnmarshalJSON := UnmarshalJSON lib;
     GetAnnotations := GetAnnotations lib;
     SetAnnotations := SetAnnotations lib;
     MarshalJSON := MarshalJSON lib;
     JSONToYAML := JSONToYAML lib;
     splitManifest := splitManifest lib |}.

(** *** The world: file system and observable events *)

(** [exec.Cmd]: the program, its arguments and its standard input. *)
Record Cmd := { Path : string; Args : list string; Stdin : option bytes }.

(** [exec.CommandContext(ctx, name, args...)] *)
Definition CommandContext (name : string) (args : list string) : Cmd :=
  {| Path := name; Args := args; Stdin := None |}.

(** The stages of the pipeline that follow the function-mutation stage. *)
Inductive stage :=
| StageExcludeKptFn
| StageReplaceImages
| StageTransform
| StageSetLabels
| StageCollectNamespaces
| StageOutput.

(** What a run leaves behind besides its result: the sub-processes it
    started and the stages it entered, in order.  The stage marks are not
    in the source; they record that the call of the stage was reached. *)
Inductive event :=
| Spawned (cmd : Cmd)
| Entered (s : stage)
| DeployInfoEvent (err : error).

Record World := { fs : FS; events : list event }.

(** Sequential code over the world. *)
Definition M (A : Type) : Type := World -> A * World.

#[global] Instance M_ret : MRet M := fun A a w => (a, w).
#[global] Instance M_bind : MBind M :=
  fun A B k m w => let '(a, w') := m w in k a w'.

Definition liftRead {A} (f : FS -> A) : M A := fun w => (f (fs w), w).

Definition liftFS {A} (f : FS -> A * FS) : M A :=
  fun w => let '(a, fs') := f (fs w) in (a, {| fs := fs'; events := events w |}).

Definition emit (e : event) : M unit :=
  fun w => (tt, {| fs := fs w; events := events w ++ [e] |}).

(** [build.Artifact] *)
Record Artifact := { ImageName : string; Tag : string }.

(** [Registries] *)
Record Registries := {
  reg_insecureRegistries : gmap string bool;
  reg_debugHelpersRegistry : string
}.

(** What the deployer calls outside kpt.go: the sub-processes behind
    [util.RunCmd] and [util.RunCmdOut], and functions of other packages and
    files of skaffold. *)
Record Collaborators := {
  lib : ManifestLib;
  (** What running a command does: its standard output, its error, and the
      file system it leaves. *)
  runProcess : Cmd -> FS -> (bytes * option error) * FS;
  (** [config.GetDebugHelpersRegistry] *)
  GetDebugHelpersRegistry : string -> FS -> string * option error;
  (** [findKustomizationConfig] and [dependenciesForKustomization] of
      kustomize.go, [buildCommandArgs] *)
  findKustomizationConfig : string -> FS -> string * option error;
  dependenciesForKustomization : string -> FS -> list string * option error;
  buildCommandArgs : list string -> string -> list string;
  (** Methods of [deploy.ManifestList] *)
  ReplaceImages : ManifestList -> list Artifact -> ManifestList * option error;
  SetLabels : ManifestList -> gmap string string -> ManifestList * option error;
  CollectNamespaces : ManifestList -> list string * option error;
  ManifestList_String : ManifestList -> string;
  (** The package variable [manifestTransforms] *)
  manifestTransforms :
    list (ManifestList -> list Artifact -> Registries -> ManifestList * option error);
  (** [outputRenderedManifests] *)
  outputRenderedManifests : string -> string -> FS -> option error * FS
}.

Section Deployer.

Variable env : Collaborators.

(** [util.RunCmdOut(cmd)]: run the command, return its standard output. *)
Definition RunCmdOut (cmd : Cmd) : M (bytes * option error) :=
  _ ← emit (Spawned cmd);
  liftFS (runProcess env cmd).

(** [util.RunCmd(cmd)]: run the command, return its error. *)
Definition RunCmd (cmd : Cmd) : M (option error) :=
  '(_, err) ← RunCmdOut cmd;
  mret err.

(** [readConfigs] uses `kpt fn source` to read config manifests from k.Dir
    and uses `kpt fn sink` to output those manifests to .pipeline. *)
Definition readConfigs (k : KptDeployer) : M (option error) :=
  let cmd := CommandContext "kpt" (kptCommandArgs (k_Dir k) ["fn"; "source"] [] []) in
  '(b, err) ← RunCmdOut cmd;
  match err with
  | Some err => mret (Some err)
  | None =>
      let cmd :=
        CommandContext "kpt"
          (kptCommandArgs (filepath.Join pipeline (k_Dir k)) ["fn"; "sink"] [] []) in
      let cmd := {| Path := Path cmd; Args := Args cmd; Stdin := Some b |} in
      '(_, err) ← RunCmdOut cmd;
      match err with
      | Some err => mret (Some err)
      | None => mret None
      end
  end.

(** The loop of [kustomizeBuild] that removes the dry configs. *)
Fixpoint removeDryConfigs (deps : list string) : M (option error) :=
  match deps with
  | [] => mret None
  | v :: rest =>
      err ← liftFS (os.RemoveAll (filepath.Join pipeline v));
      match err with
      | Some err => mret (Some err)
      | None => removeDryConfigs rest
      end
  end.

(** [kustomizeBuild] runs `kustomize build` if a kustomization config
    exists and outputs to .pipeline. *)
Definition kustomizeBuild (k : KptDeployer) : M (option error) :=
  '(_, err) ← liftRead (findKustomizationConfig env (k_Dir k));
  match err with
  | Some _ =>
      (* No kustomization config was found directly under k.Dir. *)
      mret None
  | None =>
      let cmd :=
        CommandContext "kustomize"
          (buildCommandArgs env ["-o"; filepath.Join pipeline (k_Dir k)] (k_Dir k)) in
      '(_, err) ← RunCmdOut cmd;
      match err with
      | Some err => mret (Some err)
      | None =>
          '(deps, err) ← liftRead (dependenciesForKustomization env (k_Dir k));
          match err with
          | Some err => mret (Some (fmt.Errorf "finding kustomization dependencies" err))
          | None => removeDryConfigs deps
          end
      end
  end.

(** [kptFnRun] does a dry run with the specified kpt functions (fn-path
    XOR image) against .pipeline. *)
Definition kptFnRun (k : KptDeployer) : M (ManifestList * option error) :=
  let manifests : ManifestList := [] in
  let '(flags, err) := getKptFnRunArgs k in
  match err with
  | Some err => mret ([], Some (fmt.Errorf "getting kpt fn run args" err))
  | None =>
      let cmd := CommandContext "kpt" (kptCommandArgs pipeline ["fn"; "run"] flags []) in
      '(out, err) ← RunCmdOut cmd;
      match err with
      | Some err => mret ([], Some err)
      | None =>
          let manifests :=
            if nonEmpty out then Append (lib env) manifests out else manifests in
          mret (manifests, None)
      end
  end.

(** The loop over [manifestTransforms] in [renderManifests]. *)
Fixpoint applyTransforms
  (transforms :
     list (ManifestList -> list Artifact -> Registries -> ManifestList * option error))
  (manifests : ManifestList) (builds : list Artifact) (registries : Registries)
  : M (ManifestList * option error) :=
  match transforms with
  | [] => mret (manifests, None)
  | transform :: rest =>
      _ ← emit (Entered StageTransform);
      let '(manifests, err) := transform manifests builds registries in
      match err with
      | Some err => mret ([], Some (fmt.Errorf "unable to transform manifests" err))
      | None => applyTransforms rest manifests builds registries
      end
  end.

(** [renderManifests] handles a majority of the hydration process for
    manifests. *)
Definition renderManifests (k : KptDeployer) (builds : list Artifact)
  : M (ManifestList * option error) :=
  '(debugHelpersRegistry, err) ← liftRead (GetDebugHelpersRegistry env (globalConfig k));
  match err with
  | Some err => mret ([], Some (fmt.Errorf "retrieving debug helpers registry" err))
  | None =>
  (* .pipeline is a temp dir used to store output between steps *)
  err ← liftFS (os.RemoveAll (filepath.Join pipeline (k_Dir k)));
  match err with
  | Some err =>
      mret ([], Some (fmt.Errorf ("deleting temporary directory "
                                  +:+ filepath.Join pipeline (k_Dir k)) err))
  | None =>
  err ← liftFS (os.MkdirAll (filepath.Join pipeline (k_Dir k)));
  match err with
  | Some err =>
      mret ([], Some (fmt.Errorf ("creating temporary directory "
                                  +:+ filepath.Join pipeline (k_Dir k)) err))
  | None =>
  err ← readConfigs k;
  match err with
  | Some err => mret ([], Some (fmt.Errorf "reading config manifests" err))
  | None =>
  err ← kustomizeBuild k;
  match err with
  | Some err => mret ([], Some (fmt.Errorf "kustomize build" err))
  | None =>
  '(manifests, err) ← kptFnRun k;
  match err with
  | Some err => mret ([], Some (fmt.Errorf "running kpt functions" err))
  | None =>
  if (List.length manifests =? 0)%nat then mret ([], None)
  else
  (* Remove the kpt function from the manipulated resources. *)
  _ ← emit (Entered StageExcludeKptFn);
  let '(manifests, err) := ExcludeKptFn (lib env) manifests in
  match err with
  | Some err =>
      mret ([], Some (fmt.Errorf "exclude kpt fn from manipulated resources" err))
  | None =>
  _ ← emit (Entered StageReplaceImages);
  let '(manifests, err) := ReplaceImages env manifests builds in
  match err with
  | Some err => mret ([], Some (fmt.Errorf "replacing images in manifests" err))
  | None =>
  '(manifests, err) ←
    applyTransforms (manifestTransforms env) manifests builds
      {| reg_insecureRegistries := insecureRegistries k;
         reg_debugHelpersRegistry := debugHelpersRegistry |};
  match err with
  | Some err => mret ([], Some err)
  | None =>
  _ ← emit (Entered StageSetLabels);
  mret (SetLabels env manifests (labels k))
  end end end end end end end end end.

(** **** Vocabulary for the properties of the pipeline *)

(** The part of [renderManifests] before the function-mutation stage: the
    lookup of the debug helpers registry, the reset of the working
    directory, [readConfigs] and [kustomizeBuild].  It returns the registry
    and the error [renderManifests] returns when one of them fails. *)
Definition earlierStages (k : KptDeployer) : M (string * option error) :=
  '(debugHelpersRegistry, err) ← liftRead (GetDebugHelpersRegistry env (globalConfig k));
  match err with
  | Some err => mret ("", Some (fmt.Errorf "retrieving debug helpers registry" err))
  | None =>
  err ← liftFS (os.RemoveAll (filepath.Join pipeline (k_Dir k)));
  match err with
  | Some err =>
      mret ("", Some (fmt.Errorf ("deleting temporary directory "
                                  +:+ filepath.Join pipeline (k_Dir k)) err))
  | None =>
  err ← liftFS (os.MkdirAll (filepath.Join pipeline (k_Dir k)));
  match err with
  | Some err =>
      mret ("", Some (fmt.Errorf ("creating temporary directory "
                                  +:+ filepath.Join pipeline (k_Dir k)) err))
  | None =>
  err ← readConfigs k;
  match err with
  | Some err => mret ("", Some (fmt.Errorf "reading config manifests" err))
  | None =>
  err ← kustomizeBuild k;
  match err with
  | Some err => mret ("", Some (fmt.Errorf "kustomize build" err))
  | None => mret (debugHelpersRegistry, None)
  end end end end end.

(** The part of [renderManifests] after the test for an empty result of
    the function-mutation stage. *)
Definition laterStages (k : KptDeployer) (builds : list Artifact)
  (debugHelpersRegistry : string) (manifests : ManifestList)
  : M (ManifestList * option error) :=
  _ ← emit (Entered StageExcludeKptFn);
  let '(manifests, err) := ExcludeKptFn (lib env) manifests in
  match err with
  | Some err =>
      mret ([], Some (fmt.Errorf "exclude kpt fn from manipulated resources" err))
  | None =>
  _ ← emit (Entered StageReplaceImages);
  let '(manifests, err) := ReplaceImages env manifests builds in
  match err with
  | Some err => mret ([], Some (fmt.Errorf "replacing images in manifests" err))
  | None =>
  '(manifests, err) ←
    applyTransforms (manifestTransforms env) manifests builds
      {| reg_insecureRegistries := insecureRegistries k;
         reg_debugHelpersRegistry := debugHelpersRegistry |};
  match err with
  | Some err => mret ([], Some err)
  | None =>
  _ ← emit (Entered StageSetLabels);
  mret (SetLabels env manifests (labels k))
  end end end.

(** The commands of [readConfigs]. *)
Definition fnSource (k : KptDeployer) : Cmd :=
  CommandContext "kpt" (kptCommandArgs (k_Dir k) ["fn"; "source"] [] []).

Definition fnSink (k : KptDeployer) (b : bytes) : Cmd :=
  {| Path := "kpt";
     Args := kptCommandArgs (filepath.Join pipeline (k_Dir k)) ["fn"; "sink"] [] [];
     Stdin := Some b |}.

(** The error of [getKptFnRunArgs] when both options are set, as
    [renderManifests] returns it. *)
Definition bothSetError : error :=
  fmt.Errorf "running kpt functions"
    (fmt.Errorf "getting kpt fn run args"
       (errors.New "only one of `fn-path` or `image` may be specified")).

(** [getApplyDir] returns the path to applyDir if specified by the user.
    Otherwise, getApplyDir creates a hidden directory named .kpt-hydrated in
    place of applyDir. *)
Definition getApplyDir (k : KptDeployer) : M (string * option error) :=
  let applyDir := KptApplyInventory.Dir (KptLive.Apply (k_Live k)) in
  if negb (String.eqb applyDir "") then
    err ← liftRead (fun fs => errOf (os.Stat applyDir fs));
    if os.IsNotExist err then mret ("", err)
    else mret (applyDir, None)
  else
    err ← liftFS (os.MkdirAll kptHydrated);
    match err with
    | Some err =>
        mret ("", Some (fmt.Errorf "applyDir was unspecified. creating applyDir" err))
    | None =>
        err ← liftRead (fun fs =>
                 errOf (os.Stat (filepath.Join kptHydrated inventoryTemplate) fs));
        if os.IsNotExist err then
          let cmd :=
            CommandContext "kpt"
              (kptCommandArgs kptHydrated ["live"; "init"] (getKptLiveInitArgs k) []) in
          '(_, err) ← RunCmdOut cmd;
          match err with
          | Some err => mret ("", Some err)
          | None => mret (kptHydrated, None)
          end
        else mret (kptHydrated, None)
    end.


Definition liveInit (k : KptDeployer) : Cmd :=
  CommandContext "kpt"
    (kptCommandArgs kptHydrated ["live"; "init"] (getKptLiveInitArgs k) []).

(** [Deploy] hydrates the manifests using kustomizations and kpt functions
    as described in the render method, outputs them to the applyDir, and
    runs `kpt live apply` against applyDir to create resources in the
    cluster. *)
Definition Deploy (k : KptDeployer) (builds : list Artifact)
  : M (list string * option error) :=
  '(manifests, err) ← renderManifests k builds;
  match err with
  | Some err => mret ([], Some err)
  | None =>
  if (List.length manifests =? 0)%nat then mret ([], None)
  else
  _ ← emit (Entered StageCollectNamespaces);
  let '(namespaces, err) := CollectNamespaces env manifests in
  _ ← match err with
      | Some err =>
          emit (DeployInfoEvent
                  (fmt.Errorf ("could not fetch deployed resource namespace. "
                     +:+ "This might cause port-forward and deploy health-check to fail")
                     err))
      | None => mret tt
      end;
  '(applyDir, err) ← getApplyDir k;
  match err with
  | Some err => mret ([], Some (fmt.Errorf "getting applyDir" err))
  | None =>
  _ ← emit (Entered StageOutput);
  _ ← liftFS (outputRenderedManifests env (ManifestList_String env manifests)
                (filepath.Join applyDir "resources.yaml"));
  let cmd :=
    CommandContext "kpt"
      (kptCommandArgs applyDir ["live"; "apply"] (getKptLiveApplyArgs k) []) in
  err ← RunCmd cmd;
  match err with
  | Some err => mret ([], Some err)
  | None => mret (namespaces, None)
  end end end.

(** [Cleanup] deletes what was deployed by calling `kpt live destroy`. *)
Definition Cleanup (k : KptDeployer) : M (option error) :=
  '(applyDir, err) ← getApplyDir k;
  match err with
  | Some err => mret (Some (fmt.Errorf "getting applyDir" err))
  | None =>
      let cmd := CommandContext "kpt" (kptCommandArgs applyDir ["live"; "destroy"] [] []) in
      err ← RunCmd cmd;
      match err with
      | Some err => mret (Some err)
      | None => mret None
      end
  end.

(** [Render] hydrates manifests using both kustomization and kpt
    functions. *)
Definition Render (k : KptDeployer) (builds : list Artifact) (filepath : string)
  : M (option error) :=
  '(manifests, err) ← renderManifests k builds;
  match err with
  | Some err => mret (Some err)
  | None =>
      _ ← emit (Entered StageOutput);
      liftFS (outputRenderedManifests env (ManifestList_String env manifests) filepath)
  end.

End Deployer.

(** *** Sample instances *)

(** Concrete collaborators, file systems and configurations, on which the
    model can be run. *)
Module Sample.

(** A stand-in for the YAML and JSON libraries.  A document is one tag
    byte followed by a body: [P] a resource without annotations, [F] a
    function configuration, [T] and [N] a function configuration that has
    the local-config annotation with value true or false.  A document
    that starts with a tab is not YAML; a document with another tag does
    not unmarshal. *)
Inductive shape :=
| Plain
| Function (localConfig : option bool).

Definition boolText (b : bool) : string := if b then "true" else "false".

Definition annotationsOf (s : shape) : gmap string string :=
  match s with
  | Plain => ∅
  | Function None => {[ kptFnAnnotation := "fake" ]}
  | Function (Some b) => <[ kptFnLocalConfig := boolText b ]> {[ kptFnAnnotation := "fake" ]}
  end.

Definition shapeOf (anns : gmap string string) : shape :=
  match anns !! kptFnAnnotation with
  | None => Plain
  | Some _ =>
      match anns !! kptFnLocalConfig with
      | None => Function None
      | Some v => Function (Some (String.eqb v "true"))
      end
  end.

Definition tagOf (s : shape) : ascii :=
  match s with
  | Plain => "P"
  | Function None => "F"
  | Function (Some true) => "T"
  | Function (Some false) => "N"
  end%char.

Definition tab : ascii := ascii_of_nat 9.

Definition sampleLib : ManifestLib :=
  {| Unstructured := shape * string;
     YAMLToJSON := fun yByte =>
       match yByte with
       | String c _ =>
           if Ascii.eqb c tab
           then ("", Some (ExternalError "yaml: found character that cannot start any token"))
           else (yByte, None)
       | EmptyString => (yByte, None)
       end;
     UnmarshalJSON := fun jByte =>
       match jByte with
       | String c body =>
           if Ascii.eqb c "P"%char then inl (Plain, body)
           else if Ascii.eqb c "F"%char then inl (Function None, body)
           else if Ascii.eqb c "T"%char then inl (Function (Some true), body)
           else if Ascii.eqb c "N"%char then inl (Function (Some false), body)
           else inr (ExternalError "invalid character looking for beginning of value")
       | EmptyString => inr (ExternalError "unexpected end of JSON input")
       end;
     GetAnnotations := fun obj => annotationsOf (fst obj);
     SetAnnotations := fun obj anns => (shapeOf anns, snd obj);
     MarshalJSON := fun obj => inl (String (tagOf (fst obj)) (snd obj));
     JSONToYAML := fun jByte => inl jByte;
     splitManifest := fun buf => [buf] |}.

(** Sub-processes: [kpt live init <dir>] writes the inventory template
    into the directory, [kpt fn run] prints the content of the file
    fn-run.out of the working directory when there is one, every other
    command prints nothing. *)
Definition sampleProcess (cmd : Cmd) (fs : FS) : (bytes * option error) * FS :=
  match Args cmd with
  | "live" :: "init" :: dir :: _ =>
      match resolve fs dir with
      | inl (loc, DirNode _) =>
          (("", None),
           {| root := updateDirAt (root fs) loc (insertEntry inventoryTemplate (FileNode ""));
              cwd := cwd fs |})
      | _ => (("", Some (ExternalError "exit status 1")), fs)
      end
  | "fn" :: "run" :: _ =>
      match resolve fs "fn-run.out" with
      | inl (_, FileNode content) => ((content, None), fs)
      | _ => (("", None), fs)
      end
  | _ => (("", None), fs)
  end.

Definition sampleEnv : Collaborators :=
  {| lib := sampleLib;
     runProcess := sampleProcess;
     GetDebugHelpersRegistry := fun _ _ => ("gcr.io/k8s-skaffold/skaffold-debug-support", None);
     findKustomizationConfig := fun dir _ =>
       ("", Some (ExternalError ("no Kustomization configuration found in directory: " +:+ dir)));
     dependenciesForKustomization := fun _ _ => ([], None);
     buildCommandArgs := fun buildArgs kustomizePath => "build" :: buildArgs ++ [kustomizePath];
     ReplaceImages := fun manifests _ => (manifests, None);
     SetLabels := fun manifests _ => (manifests, None);
     CollectNamespaces := fun _ => (["default"], None);
     ManifestList_String := fun manifests => strings.Join manifests "
---
";
     manifestTransforms := [];
     outputRenderedManifests := fun _ _ fs => (None, fs) |}.

(** A project directory /home/p with three files. *)
Definition projectFS : FS :=
  {| root :=
       DirNode [("home", DirNode [("p", DirNode [("README.md", FileNode "");
                                                 ("bar.yml", FileNode "");
                                                 ("foo.yaml", FileNode "")])])];
     cwd := ["home"; "p"] |}.

(** A project with a configuration directory and a directory of kpt
    functions next to it. *)
Definition fnPathFS : FS :=
  {| root :=
       DirNode [("work", DirNode [("config", DirNode [("deployment.yaml", FileNode "")]);
                                  ("kpt-fn", DirNode [("kpt-func.yaml", FileNode "")])])];
     cwd := ["work"] |}.

(** A project for which [kpt fn run] prints one function configuration. *)
Definition functionFS : FS :=
  {| root := DirNode [("work", DirNode [("fn-run.out", FileNode "Fa")])]; cwd := ["work"] |}.

(** An empty project directory. *)
Definition emptyFS : FS :=
  {| root := DirNode [("work", DirNode [])]; cwd := ["work"] |}.

Definition noFn : KptFn.t :=
  {| KptFn.FnPath := ""; KptFn.Image := ""; KptFn.NetworkName := "";
     KptFn.GlobalScope := false; KptFn.Network := false; KptFn.Mount := [] |}.

Definition noLive : KptLive.t :=
  {| KptLive.Apply :=
       {| KptApplyInventory.Dir := ""; KptApplyInventory.InventoryID := "";
          KptApplyInventory.InventoryNamespace := "" |};
     KptLive.Options :=
       {| KptApplyOptions.PollPeriod := ""; KptApplyOptions.PrunePropagationPolicy := "";
          KptApplyOptions.PruneTimeout := ""; KptApplyOptions.ReconcileTimeout := "" |} |}.

Definition deployer (dir : string) (fn : KptFn.t) (live : KptLive.t) : KptDeployer :=
  {| KptDeploy_ := {| KptDeploy.Dir := dir; KptDeploy.Fn := fn; KptDeploy.Live := live |};
     insecureRegistries := ∅; labels := ∅; globalConfig := "" |}.

(** Dir: "." and nothing else. *)
Definition plainDeployer : KptDeployer := deployer "." noFn noLive.

(** Both fn-path and image set. *)
Definition bothDeployer : KptDeployer :=
  deployer "."
    {| KptFn.FnPath := "kpt-func.yaml";
       KptFn.Image := "gcr.io/example.com/my-fn:v1.0.0 -- foo=bar";
       KptFn.NetworkName := ""; KptFn.GlobalScope := false; KptFn.Network := false;
       KptFn.Mount := [] |}
    noLive.

(** The configuration in ./config, the functions in ./kpt-fn. *)
Definition fnPathDeployer : KptDeployer :=
  deployer "config"
    {| KptFn.FnPath := "kpt-fn"; KptFn.Image := ""; KptFn.NetworkName := "";
       KptFn.GlobalScope := false; KptFn.Network := false; KptFn.Mount := [] |}
    noLive.

(** An explicit apply directory that [os.Stat] reports as not existing. *)
Definition explicitDeployer : KptDeployer :=
  deployer "." noFn
    {| KptLive.Apply :=
         {| KptApplyInventory.Dir := "invalid_path"; KptApplyInventory.InventoryID := "";
            KptApplyInventory.InventoryNamespace := "" |};
       KptLive.Options := KptLive.Options noLive |}.

(** The configuration in a directory below README.md. *)
Definition belowFileDeployer : KptDeployer := deployer "README.md/docs" noFn noLive.


(** A name of 300 bytes. *)
Definition longName : string := string_of_list_ascii (repeat "a"%char 300).

(** Collaborators for a project with a kustomization: the configuration
    file is found in every directory. *)
Definition kustomizeEnv : Collaborators :=
  {| lib := sampleLib;
     runProcess := sampleProcess;
     GetDebugHelpersRegistry := GetDebugHelpersRegistry sampleEnv;
     findKustomizationConfig := fun dir _ => (filepath.Join dir "kustomization.yaml", None);
     dependenciesForKustomization := fun _ _ => ([], None);
     buildCommandArgs := buildCommandArgs sampleEnv;
     ReplaceImages := ReplaceImages sampleEnv;
     SetLabels := SetLabels sampleEnv;
     CollectNamespaces := CollectNamespaces sampleEnv;
     ManifestList_String := ManifestList_String sampleEnv;
     manifestTransforms := [];
     outputRenderedManifests := outputRenderedManifests sampleEnv |}.

Definition world (fs : FS) : World := {| fs := fs; events := [] |}.

End Sample.

(** *** Further vocabulary *)

(** Tokens without a space. *)
Definition spaceFree (tokens : list string) : Prop :=
  List.Forall (fun token => strings.ContainsByte token space = false) tokens.

(** The commands among the events, in the order they were started. *)
Fixpoint commands (evs : list event) : list Cmd :=
  match evs with
  | [] => []
  | Spawned cmd :: rest => cmd :: commands rest
  | _ :: rest => commands rest
  end.

(** A command of the hydration: a [kpt fn] command or [kustomize]. *)
Definition isHydrationCommand (cmd : Cmd) : Prop :=
  (Path cmd = "kpt" /\ exists rest, Args cmd = "fn" :: rest) \/ Path cmd = "kustomize".

(** The same collaborators with another error result of
    [CollectNamespaces]. *)
Definition withNamespacesError (env : Collaborators) (nsErr : option error)
  : Collaborators :=
  {| lib := lib env;
     runProcess := runProcess env;
     GetDebugHelpersRegistry := GetDebugHelpersRegistry env;
     findKustomizationConfig := findKustomizationConfig env;
     dependenciesForKustomization := dependenciesForKustomization env;
     buildCommandArgs := buildCommandArgs env;
     ReplaceImages := ReplaceImages env;
     SetLabels := SetLabels env;
     CollectNamespaces := fun manifests => (fst (CollectNamespaces env manifests), nsErr);
     ManifestList_String := ManifestList_String env;
     manifestTransforms := manifestTransforms env;
     outputRenderedManifests := outputRenderedManifests env |}.

(** The same collaborators with the error result of
    [outputRenderedManifests] erased. *)
Definition withoutOutputError (env : Collaborators) : Collaborators :=
  {| lib := lib env;
     runProcess := runProcess env;
     GetDebugHelpersRegistry := GetDebugHelpersRegistry env;
     findKustomizationConfig := findKustomizationConfig env;
     dependenciesForKustomization := dependenciesForKustomization env;
     buildCommandArgs := buildCommandArgs env;
     ReplaceImages := ReplaceImages env;
     SetLabels := SetLabels env;
     CollectNamespaces := CollectNamespaces env;
     ManifestList_String := ManifestList_String env;
     manifestTransforms := manifestTransforms env;
     outputRenderedManifests := fun manifests path fs =>
       (None, snd (outputRenderedManifests env manifests path fs)) |}.

(** The messages [renderManifests] wraps the errors of its stages in. *)
Definition stageMessages (k : KptDeployer) : list string :=
  ["retrieving debug helpers registry";
   "deleting temporary directory " +:+ filepath.Join pipeline (k_Dir k);
   "creating temporary directory " +:+ filepath.Join pipeline (k_Dir k);
   "reading config manifests";
   "kustomize build";
   "running kpt functions";
   "exclude kpt fn from manipulated resources";
   "replacing images in manifests";
   "unable to transform manifests"].

(** *** Further sample instances *)

Module Sample2.

(** A project with an apply directory and a regular file in the place of
    the hidden directory. *)
Definition appliedFS : FS :=
  {| root := DirNode [("work", DirNode [(".kpt-hydrated", FileNode "");
                                        ("valid_path", DirNode [])])];
     cwd := ["work"] |}.

(** An explicit apply directory. *)
Definition validDeployer : KptDeployer :=
  Sample.deployer "." Sample.noFn
    {| KptLive.Apply :=
         {| KptApplyInventory.Dir := "valid_path"; KptApplyInventory.InventoryID := "";
            KptApplyInventory.InventoryNamespace := "" |};
       KptLive.Options := KptLive.Options Sample.noLive |}.

(** Inventory overrides without spaces. *)
Definition inventoryDeployer : KptDeployer :=
  Sample.deployer "." Sample.noFn
    {| KptLive.Apply :=
         {| KptApplyInventory.Dir := "";
            KptApplyInventory.InventoryID := "1a23bcde-4f56-7891-a2bc-de34fabcde5f6";
            KptApplyInventory.InventoryNamespace := "foo" |};
       KptLive.Options := KptLive.Options Sample.noLive |}.

(** Only the function image set, with arguments after it. *)
Definition imageDeployer : KptDeployer :=
  Sample.deployer "."
    {| KptFn.FnPath := "";
       KptFn.Image := "gcr.io/example.com/my-fn:v1.0.0 -- foo=bar";
       KptFn.NetworkName := "foo"; KptFn.GlobalScope := true; KptFn.Network := true;
       KptFn.Mount := ["type=bind"; "src=$(pwd)"; "dst=/source"] |}
    Sample.noLive.

(** A project with a function configuration printed by [kpt fn run] and no
    apply directory. *)
Definition functionDeployer : KptDeployer :=
  Sample.deployer "." Sample.noFn
    {| KptLive.Apply :=
         {| KptApplyInventory.Dir := "invalid_path"; KptApplyInventory.InventoryID := "";
            KptApplyInventory.InventoryNamespace := "" |};
       KptLive.Options := KptLive.Options Sample.noLive |}.

End Sample2.

(** The other commands of the deployer. *)
Definition kustomizeBuildCmd (env : Collaborators) (k : KptDeployer) : Cmd :=
  CommandContext "kustomize"
    (buildCommandArgs env ["-o"; filepath.Join pipeline (k_Dir k)] (k_Dir k)).

(** A kustomization config is found directly under the configuration
    directory: [findKustomizationConfig] returns no error. *)
Definition kustomizationFound (env : Collaborators) (k : KptDeployer) (fs : FS) : bool :=
  match snd (findKustomizationConfig env (k_Dir k) fs) with
  | None => true
  | Some _ => false
  end.

Definition fnRun (flags : list string) : Cmd :=
  CommandContext "kpt" (kptCommandArgs pipeline ["fn"; "run"] flags []).

Definition liveDestroy (applyDir : string) : Cmd :=
  CommandContext "kpt" ["live"; "destroy"; applyDir].

(** The commands of a complete hydration, in order: source, sink with the
    bytes it is given, [kustomize build] when there is a kustomization,
    and the function run. *)
Definition hydrationPlan (env : Collaborators) (k : KptDeployer) (b : bytes)
  (withKustomize : bool) : list Cmd :=
  fnSource k :: fnSink k b
  :: (if withKustomize then [kustomizeBuildCmd env k] else [])
  ++ [fnRun (fst (getKptFnRunArgs k))].

(** A flag and its value, when the value is set. *)
Definition optionalFlag (flag value : string) : list string :=
  if nonEmpty value then [flag; value] else [].

(** [w'] has the events of [w] and then events with the commands [cs]. *)
Definition appended (w w' : World) (cs : list Cmd) : Prop :=
  exists evs, events w' = events w ++ evs /\ commands evs = cs.

(** The part of [Deploy] from [getApplyDir] on. *)
Definition applyTail (env : Collaborators) (k : KptDeployer) (manifests : ManifestList)
  (namespaces : list string) : M (list string * option error) :=
  '(applyDir, err) ← getApplyDir env k;
  match err with
  | Some err => mret ([], Some (fmt.Errorf "getting applyDir" err))
  | None =>
  _ ← emit (Entered StageOutput);
  _ ← liftFS (outputRenderedManifests env (ManifestList_String env manifests)
                (filepath.Join applyDir "resources.yaml"));
  let cmd :=
    CommandContext "kpt"
      (kptCommandArgs applyDir ["live"; "apply"] (getKptLiveApplyArgs k) []) in
  err ← RunCmd env cmd;
  match err with
  | Some err => mret ([], Some err)
  | None => mret (namespaces, None)
  end end.

(** The events of the namespace collection in [Deploy]. *)
Definition namespaceEvents (nsErr : option error) : list event :=
  Entered StageCollectNamespaces
  :: match nsErr with
     | Some err =>
         [DeployInfoEvent
            (fmt.Errorf ("could not fetch deployed resource namespace. "
               +:+ "This might cause port-forward and deploy health-check to fail") err)]
     | None => []
     end.

(** ** Part II: properties *)

(** *** The argument vector builder *)

Lemma Split_not_nil s sep : strings.Split s sep <> [].
Proof.
  destruct s as [|c rest]; simpl; [discriminate|].
  destruct (Ascii.eqb c sep); [discriminate|].
  destruct (strings.Split rest sep); discriminate.
Qed.

Lemma Join_cons e elems sep :
  elems <> [] ->
  strings.Join (e :: elems) sep = e +:+ sep +:+ strings.Join elems sep.
Proof. destruct elems; [congruence|reflexivity]. Qed.

(** Joining the pieces with the separator gives the string back. *)
Lemma Join_Split s sep :
  strings.Join (strings.Split s sep) (String sep EmptyString) = s.
Proof.
  induction s as [|c rest IH]; simpl; [reflexivity|].
  destruct (Ascii.eqb_spec c sep) as [->|Hne].
  - rewrite Join_cons by apply Split_not_nil. simpl. now rewrite IH.
  - pose proof (Split_not_nil rest sep) as Hn.
    destruct (strings.Split rest sep) as [|piece pieces]; [congruence|].
    destruct pieces as [|p ps]; simpl in *; now rewrite <- IH.
Qed.

(** No piece contains the separator. *)
Lemma Split_pieces s sep piece :
  In piece (strings.Split s sep) -> strings.ContainsByte piece sep = false.
Proof.
  revert piece. induction s as [|c rest IH]; simpl; intros piece Hin.
  - destruct Hin as [<-|[]]. reflexivity.
  - destruct (Ascii.eqb_spec c sep) as [->|Hne].
    + destruct Hin as [<-|Hin]; [reflexivity|auto].
    + pose proof (Split_not_nil rest sep) as Hn.
      destruct (strings.Split rest sep) as [|p ps]; [congruence|].
      destruct Hin as [<-|Hin].
      * simpl. rewrite (IH p) by (left; reflexivity).
        destruct (Ascii.eqb_spec c sep); [congruence|reflexivity].
      * apply IH. right. exact Hin.
Qed.

(** A string without the separator is a single piece. *)
Lemma Split_single s sep :
  strings.ContainsByte s sep = false -> strings.Split s sep = [s].
Proof.
  induction s as [|c rest IH]; simpl; [reflexivity|].
  destruct (Ascii.eqb c sep); simpl; [discriminate|].
  intros H. now rewrite IH.
Qed.


Lemma appendSplit_flat_map args vs :
  appendSplit args vs = args ++ flat_map (fun v => strings.Split v space) vs.
Proof.
  unfold appendSplit. revert args.
  induction vs as [|v vs IH]; intros args; simpl.
  - now rewrite app_nil_r.
  - rewrite IH. now rewrite <- app_assoc.
Qed.

(** C2. The argument vector built by [kptCommandArgs] is the space-split
    command tokens, then the directory unless it is the empty string, then
    the space-split flags, then the space-split global flags, in this
    order, where splitting a token gives the pieces without spaces that,
    joined by single spaces, give the token back; on dir "test", commands
    live, apply, flags --fn-path, a.yaml and global flag -h the vector is
    live apply test --fn-path a.yaml -h. *)
Theorem kptCommandArgs_order :
  (forall dir commands flags globalFlags,
     kptCommandArgs dir commands flags globalFlags =
       flat_map (fun v => strings.Split v space) commands
       ++ (if String.eqb dir "" then [] else [dir])
       ++ flat_map (fun v => strings.Split v space) flags
       ++ flat_map (fun v => strings.Split v space) globalFlags)
  /\ (forall v, strings.Join (strings.Split v space) " " = v
                /\ List.Forall (fun piece => strings.ContainsByte piece space = false)
                     (strings.Split v space))
  /\ kptCommandArgs "test" ["live"; "apply"] ["--fn-path"; "a.yaml"] ["-h"]
     = ["live"; "apply"; "test"; "--fn-path"; "a.yaml"; "-h"].
Proof.
  split; [|split].
  - intros dir commands flags globalFlags. unfold kptCommandArgs.
    rewrite !appendSplit_flat_map.
    destruct dir as [|c d]; simpl; now rewrite <- ?app_assoc.
  - intros v. split.
    + apply (Join_Split v space).
    + apply List.Forall_forall. intros piece. apply Split_pieces.
  - reflexivity.
Qed.

(** A flag that holds several words gives several arguments, and an empty
    token gives an empty argument. *)
Example kptCommandArgs_split :
  kptCommandArgs ".pipeline" ["fn"; "run"]
    ["--dry-run"; "--image"; "gcr.io/example.com/my-fn:v1.0.0 -- foo=bar"] []
  = ["fn"; "run"; ".pipeline"; "--dry-run"; "--image";
     "gcr.io/example.com/my-fn:v1.0.0"; "--"; "foo=bar"] /\
  kptCommandArgs "" ["live"; ""] [] ["-v 3"] = ["live"; ""; "-v"; "3"].
Proof. split; reflexivity. Qed.

(** *** The function-annotation filter *)

Section FilterFacts.

Variable lib : ManifestLib.

Lemma loop_cons yByte rest acc :
  ExcludeKptFn_loop lib (yByte :: rest) acc =
    match filterOne lib yByte with
    | inr err => ([], Some err)
    | inl docs => ExcludeKptFn_loop lib rest (acc ++ docs)
    end.
Proof.
  simpl. unfold filterOne, reserialize, decode, Append.
  destruct (UnmarshalJSON lib _) as [obj|err]; [|reflexivity].
  destruct (GetAnnotations lib obj !! kptFnAnnotation); [|reflexivity].
  destruct (GetAnnotations lib obj !! kptFnLocalConfig); [reflexivity|].
  destruct (MarshalJSON lib _) as [j|err]; [|reflexivity].
  destruct (JSONToYAML lib j); reflexivity.
Qed.

Lemma loop_filterAll manifest acc :
  ExcludeKptFn_loop lib manifest acc =
    match filterAll lib manifest with
    | inl out => (acc ++ out, None)
    | inr err => ([], Some err)
    end.
Proof.
  revert acc. induction manifest as [|y rest IH]; intros acc.
  - simpl. now rewrite app_nil_r.
  - rewrite loop_cons. simpl. destruct (filterOne lib y) as [docs|err]; [|reflexivity].
    rewrite IH. destruct (filterAll lib rest); [|reflexivity].
    now rewrite app_assoc.
Qed.

Lemma ExcludeKptFn_filterAll manifest :
  ExcludeKptFn lib manifest =
    match filterAll lib manifest with
    | inl out => (out, None)
    | inr err => ([], Some err)
    end.
Proof. unfold ExcludeKptFn. now rewrite loop_filterAll. Qed.

Lemma ExcludeKptFn_ok manifest out :
  ExcludeKptFn lib manifest = (out, None) <-> filterAll lib manifest = inl out.
Proof.
  rewrite ExcludeKptFn_filterAll.
  destruct (filterAll lib manifest); split; intros H; inversion H; reflexivity.
Qed.

Lemma filterAll_app pre post :
  filterAll lib (pre ++ post) =
    match filterAll lib pre with
    | inr err => inr err
    | inl out1 =>
        match filterAll lib post with
        | inr err => inr err
        | inl out2 => inl (out1 ++ out2)
        end
    end.
Proof.
  induction pre as [|y pre IH]; simpl.
  - destruct (filterAll lib post); reflexivity.
  - destruct (filterOne lib y) as [docs|err]; [|reflexivity].
    rewrite IH. destruct (filterAll lib pre); [|reflexivity].
    destruct (filterAll lib post); [|reflexivity].
    now rewrite app_assoc.
Qed.

Lemma filterOne_kept yByte : kept lib yByte -> filterOne lib yByte = inl [yByte].
Proof.
  intros (obj & Hd & Hk). unfold filterOne. rewrite Hd.
  destruct Hk as [-> | [v ->]]; [reflexivity|].
  destruct (GetAnnotations lib obj !! kptFnAnnotation); reflexivity.
Qed.

Lemma filterAll_kept manifest :
  List.Forall (kept lib) manifest -> filterAll lib manifest = inl manifest.
Proof.
  induction 1 as [|y rest Hy _ IH]; simpl; [reflexivity|].
  now rewrite (filterOne_kept _ Hy), IH.
Qed.

(** With the round trip, everything one document contributes is kept by a
    second pass. *)
Lemma filterOne_output_kept yByte docs :
  serializationRoundTrip lib ->
  filterOne lib yByte = inl docs -> List.Forall (kept lib) docs.
Proof.
  intros Hrt. unfold filterOne.
  destruct (decode lib yByte) as [obj|err] eqn:Hd; [|discriminate].
  destruct (GetAnnotations lib obj !! kptFnAnnotation) as [f|] eqn:Hf.
  - destruct (GetAnnotations lib obj !! kptFnLocalConfig) as [l|] eqn:Hl.
    + intros [= <-]. constructor; [|constructor].
      exists obj. split; [exact Hd|]. right. rewrite Hl. eauto.
    + destruct (reserialize lib obj) as [newYByte|err] eqn:Hr; [|discriminate].
      intros [= <-].
      assert (Hsome : is_Some (GetAnnotations lib obj !! kptFnAnnotation))
        by (rewrite Hf; eauto).
      destruct (Hrt obj newYByte Hsome Hl Hr) as (Hs & obj' & Hd' & Ha').
      rewrite Hs. constructor; [|constructor].
      exists obj'. split; [exact Hd'|]. right. rewrite Ha'.
      rewrite lookup_insert_eq. eauto.
  - intros [= <-]. constructor; [|constructor].
    exists obj. split; [exact Hd|]. left. exact Hf.
Qed.

Lemma filterAll_output_kept manifest out :
  serializationRoundTrip lib ->
  filterAll lib manifest = inl out -> List.Forall (kept lib) out.
Proof.
  intros Hrt. revert out. induction manifest as [|y rest IH]; simpl; intros out.
  - intros [= <-]. constructor.
  - destruct (filterOne lib y) as [docs|err] eqn:Hy; [|discriminate].
    destruct (filterAll lib rest) as [out'|err]; [|discriminate].
    intros [= <-]. apply List.Forall_app. split.
    + eapply filterOne_output_kept; eauto.
    + apply IH. reflexivity.
Qed.

(** C3. The filter is idempotent on the document sets on which it
    succeeds, given that the libraries read back what they serialized:
    every document of the output of the first pass either has no function
    annotation or has the local-config annotation, so the second pass
    returns its input. *)
Theorem ExcludeKptFn_idempotent (manifest out : ManifestList) :
  serializationRoundTrip lib ->
  ExcludeKptFn lib manifest = (out, None) ->
  List.Forall (kept lib) out /\ ExcludeKptFn lib out = (out, None).
Proof.
  intros Hrt Hout. apply ExcludeKptFn_ok in Hout.
  pose proof (filterAll_output_kept _ _ Hrt Hout) as Hkept.
  split; [exact Hkept|].
  apply ExcludeKptFn_ok. now apply filterAll_kept.
Qed.

(** C4. On a document set on which the filter succeeds, a document that
    has no function annotation, or that has the local-config annotation
    already (with any value), is in the output as it was in the input, at
    its place: between the output for the documents before it and the
    output for the documents after it. *)
Theorem ExcludeKptFn_frame (pre post : ManifestList) (yByte : bytes) (out : ManifestList) :
  ExcludeKptFn lib (pre ++ yByte :: post) = (out, None) ->
  kept lib yByte ->
  exists pre' post',
    ExcludeKptFn lib pre = (pre', None) /\
    ExcludeKptFn lib post = (post', None) /\
    out = pre' ++ yByte :: post'.
Proof.
  intros Hout Hk. apply ExcludeKptFn_ok in Hout.
  rewrite filterAll_app in Hout. simpl in Hout.
  rewrite (filterOne_kept _ Hk) in Hout.
  destruct (filterAll lib pre) as [pre'|] eqn:Hpre; [|discriminate].
  destruct (filterAll lib post) as [post'|] eqn:Hpost; [|discriminate].
  injection Hout as <-.
  exists pre', post'. rewrite !ExcludeKptFn_ok. auto.
Qed.

Lemma loop_withoutYAMLError manifest acc :
  ExcludeKptFn_loop (withoutYAMLError lib) manifest acc = ExcludeKptFn_loop lib manifest acc.
Proof.
  revert acc. induction manifest as [|y rest IH]; intros acc; simpl; [reflexivity|].
  destruct (UnmarshalJSON lib _) as [obj|err]; [|reflexivity].
  destruct (GetAnnotations lib obj !! kptFnAnnotation); [|apply IH].
  destruct (GetAnnotations lib obj !! kptFnLocalConfig); [apply IH|].
  destruct (MarshalJSON lib _) as [j|err]; [|reflexivity].
  destruct (JSONToYAML lib j); [apply IH|reflexivity].
Qed.

(** C10. The filter is all or nothing: when a document of the set does not
    unmarshal after the conversion from YAML to JSON, the filter returns an
    error and the nil list; if the documents before it pass, the error is
    the unmarshal error of that document, wrapped.  The error of the
    conversion itself is never looked at: erasing it from the library
    changes nothing. *)
Theorem ExcludeKptFn_all_or_nothing (manifest : ManifestList) (yByte : bytes) (err : error) :
  In yByte manifest ->
  decode lib yByte = inr err ->
  (exists err', ExcludeKptFn lib manifest = ([], Some err')) /\
  (forall pre post pre',
     manifest = pre ++ yByte :: post ->
     ExcludeKptFn lib pre = (pre', None) ->
     ExcludeKptFn lib manifest = ([], Some (fmt.Errorf "unmarshaling config" err))) /\
  ExcludeKptFn (withoutYAMLError lib) manifest = ExcludeKptFn lib manifest.
Proof.
  intros Hin Hd.
  assert (Hone : filterOne lib yByte = inr (fmt.Errorf "unmarshaling config" err)).
  { unfold filterOne. now rewrite Hd. }
  split; [|split].
  - apply List.in_split in Hin. destruct Hin as (pre & post & ->).
    rewrite ExcludeKptFn_filterAll, filterAll_app. simpl. rewrite Hone.
    destruct (filterAll lib pre); eauto.
  - intros pre post pre' -> Hpre. apply ExcludeKptFn_ok in Hpre.
    rewrite ExcludeKptFn_filterAll, filterAll_app, Hpre. simpl. now rewrite Hone.
  - apply loop_withoutYAMLError.
Qed.

End FilterFacts.

(** The sample library satisfies the round trip. *)
Lemma sampleLib_roundTrip : serializationRoundTrip Sample.sampleLib.
Proof.
  intros [sh body] newYByte Hf Hl Hr.
  destruct sh as [|[b|]]; simpl in *.
  - rewrite lookup_empty in Hf. destruct Hf as [? [=]].
  - rewrite lookup_insert_eq in Hl. discriminate.
  - vm_compute in Hr. injection Hr as <-.
    split; [reflexivity|].
    exists (Sample.Function (Some true), body). split; reflexivity.
Qed.

Lemma ExcludeKptFn_idempotent_witness :
  serializationRoundTrip Sample.sampleLib /\
  ExcludeKptFn Sample.sampleLib ["Fa"; "Pb"; "Nc"] = (["Ta"; "Pb"; "Nc"], None) /\
  List.Forall (kept Sample.sampleLib) ["Ta"; "Pb"; "Nc"] /\
  ExcludeKptFn Sample.sampleLib ["Ta"; "Pb"; "Nc"] = (["Ta"; "Pb"; "Nc"], None).
Proof.
  split; [exact sampleLib_roundTrip|].
  split; [reflexivity|].
  apply (ExcludeKptFn_idempotent Sample.sampleLib ["Fa"; "Pb"; "Nc"]).
  - exact sampleLib_roundTrip.
  - reflexivity.
Defined.

Lemma ExcludeKptFn_frame_witness :
  kept Sample.sampleLib "Nb" /\
  exists pre' post',
    ExcludeKptFn Sample.sampleLib ["Fa"] = (pre', None) /\
    ExcludeKptFn Sample.sampleLib ["Fc"; "Pd"] = (post', None) /\
    ["Ta"; "Nb"; "Tc"; "Pd"] = pre' ++ "Nb" :: post'.
Proof.
  assert (Hk : kept Sample.sampleLib "Nb").
  { exists (Sample.Function (Some false), "b"). split; [reflexivity|].
    right. exists "false". reflexivity. }
  split; [exact Hk|].
  apply (ExcludeKptFn_frame Sample.sampleLib ["Fa"] ["Fc"; "Pd"] "Nb").
  - reflexivity.
  - exact Hk.
Defined.

Lemma ExcludeKptFn_all_or_nothing_witness :
  let notYAML := String Sample.tab "b" in
  let err := ExternalError "unexpected end of JSON input" in
  (exists err', ExcludeKptFn Sample.sampleLib ["Pa"; notYAML; "Fc"] = ([], Some err')) /\
  (forall pre post pre',
     ["Pa"; notYAML; "Fc"] = pre ++ notYAML :: post ->
     ExcludeKptFn Sample.sampleLib pre = (pre', None) ->
     ExcludeKptFn Sample.sampleLib ["Pa"; notYAML; "Fc"]
       = ([], Some (fmt.Errorf "unmarshaling config" err))) /\
  ExcludeKptFn (withoutYAMLError Sample.sampleLib) ["Pa"; notYAML; "Fc"]
    = ExcludeKptFn Sample.sampleLib ["Pa"; notYAML; "Fc"].
Proof.
  apply (ExcludeKptFn_all_or_nothing Sample.sampleLib
           ["Pa"; String Sample.tab "b"; "Fc"] (String Sample.tab "b")
           (ExternalError "unexpected end of JSON input")).
  - simpl. right. left. reflexivity.
  - reflexivity.
Defined.

(** *** Lexical path functions *)

(** The cases of the documentation of path/filepath. *)
Example Clean_cases :
  filepath.Clean "abc//def//ghi" = "abc/def/ghi" /\
  filepath.Clean "abc/./../def" = "def" /\
  filepath.Clean "abc/def/../../.." = ".." /\
  filepath.Clean "../../abc" = "../../abc" /\
  filepath.Clean "/../abc/" = "/abc" /\
  filepath.Clean "///" = "/" /\
  filepath.Clean "" = ".".
Proof. repeat split. Qed.

Example Join_Base_cases :
  filepath.Join pipeline "." = ".pipeline" /\
  filepath.Join pipeline "config/" = ".pipeline/config" /\
  filepath.Join "" "a.yaml" = "a.yaml" /\
  filepath.Join "a" "" = "a" /\
  filepath.Join "" "" = "" /\
  filepath.Base "config/deployment.yaml" = "deployment.yaml" /\
  filepath.Base "config/" = "config" /\
  filepath.Base "/" = "/" /\
  filepath.Base "" = ".".
Proof. repeat split. Qed.



Lemma validName_inv name :
  validName name = true ->
  name <> "" /\ strings.ContainsByte name slash = false /\ name <> "." /\ name <> "..".
Proof.
  unfold validName. rewrite !andb_true_iff, !negb_true_iff.
  intros [[[Hlen Hslash] Hdot] Hdots].
  repeat split; try assumption.
  - intros ->. discriminate.
  - now apply String.eqb_neq.
  - now apply String.eqb_neq.
Qed.






(** *** The pattern of resource names *)


(** *** Walking the tree *)

Lemma node_ind2 (P : node -> Prop) :
  (forall content, P (FileNode content)) ->
  (forall entries, List.Forall (fun entry => P (snd entry)) entries -> P (DirNode entries)) ->
  forall n, P n.
Proof.
  intros Hfile Hdir. fix IH 1. intros [content|entries].
  - apply Hfile.
  - apply Hdir. induction entries as [|[name child] rest IHrest].
    + constructor.
    + constructor; [apply IH|apply IHrest].
Qed.

Lemma walk_dir {St : Type}
  (walkFn : string -> option FileInfo -> option error -> St -> outcome (option error * St))
  path entries st :
  walk walkFn path (DirNode entries) st =
    match walkFn path (Some {| IsDir := true |}) None st with
    | Panicked => Panicked
    | Returned (Some err1, st1) => Returned (Some err1, st1)
    | Returned (None, st1) => walkEntries walkFn path entries st1
    end.
Proof.
  simpl. destruct (walkFn path _ None st) as [[[err1|] st1]|]; try reflexivity.
  revert st1. induction entries as [|[name child] rest IH]; intros st1; [reflexivity|].
  simpl. destruct (walk walkFn _ child st1) as [[[err|] st']|]; try reflexivity.
  - destruct (isDir child && isSkipDir err); [apply IH|reflexivity].
  - apply IH.
Qed.



Lemma walk_getResources n :
  forall path files,
    exists more,
      walk getResources_walkFn path n files = Returned (None, files ++ more) /\
      forall p, In p more <-> found n path p.
Proof.
  induction n as [content|entries IH] using node_ind2; intros path files.
  - simpl. unfold getResources_walkFn, regexp.MatchString_yaml. simpl.
    destruct (regexp.matchYamlSuffix (filepath.Base path)) eqn:Hm.
    + exists [path]. split; [reflexivity|]. intros p. split.
      * intros [<-|[]]. exists []. repeat split; [constructor|exact Hm].
      * intros (names & Hat & _ & ->). inversion Hat. now left.
    + exists []. split; [now rewrite app_nil_r|]. intros p. split; [intros []|].
      intros (names & Hat & Hmatch & ->). inversion Hat; subst.
      simpl in Hmatch. congruence.
  - rewrite walk_dir.
    assert (Hfn : getResources_walkFn path (Some {| IsDir := true |}) None files
                  = Returned (None, files)) by reflexivity.
    rewrite Hfn. clear Hfn.
    assert (Hloop : exists more,
               walkEntries getResources_walkFn path entries files
                 = Returned (None, files ++ more) /\
               forall p, In p more <->
                 exists name child, In (name, child) entries /\
                                    found child (filepath.Join path name) p).
    { revert files. induction IH as [|[name child] rest Hchild _ IHrest]; intros files.
      - exists []. split; [simpl; now rewrite app_nil_r|].
        intros p. split; [intros []|]. intros (? & ? & [] & _).
      - simpl in Hchild.
        destruct (Hchild (filepath.Join path name) files) as (m1 & Hw1 & Hm1).
        destruct (IHrest (files ++ m1)) as (m2 & Hw2 & Hm2).
        exists (m1 ++ m2). split.
        + simpl. rewrite Hw1, Hw2. now rewrite app_assoc.
        + intros p. rewrite in_app_iff, Hm1, Hm2. split.
          * intros [Hp|(n' & c' & Hin & Hp)].
            -- exists name, child. split; [now left|exact Hp].
            -- exists n', c'. split; [now right|exact Hp].
          * intros (n' & c' & [[= <- <-]|Hin] & Hp); [now left|].
            right. eauto. }
    destruct Hloop as (more & Hw & Hmore). exists more. split; [exact Hw|].
    intros p. rewrite Hmore. split.
    + intros (name & child & Hin & names & Hat & Hmatch & ->).
      exists (name :: names). repeat split; [econstructor; eauto|exact Hmatch].
    + intros (names & Hat & Hmatch & ->). inversion Hat; subst.
      eexists _, _. split; [eassumption|]. eexists. repeat split; eauto.
Qed.



(** *** The dependency resolver *)


Lemma Stat_resolved path fs loc n :
  resolve fs path = inl (loc, n) -> os.Stat path fs = inl {| IsDir := isDir n |}.
Proof. unfold os.Stat. now intros ->. Qed.

Lemma getResources_resolved root fs loc n :
  resolve fs root = inl (loc, n) ->
  getResources root fs =
    match walk getResources_walkFn root n [] with
    | Panicked => Panicked
    | Returned (Some SkipDir, files) => Returned (files, None)
    | Returned (err, files) => Returned (files, err)
    end.
Proof.
  intros Hres. unfold getResources, Walk.
  rewrite (Stat_resolved _ _ _ _ Hres), Hres. cbn [errOf os.IsNotExist].
  destruct (walk getResources_walkFn root n []) as [[[[]|] files]|]; reflexivity.
Qed.



(** A root below a regular file is not reported as missing by [os.Stat]
    (the error is ENOTDIR); [Walk] then calls the function with a nil
    [FileInfo], and [info.IsDir()] panics. *)
Example getResources_below_file :
  os.Stat "foo.yaml/x" Sample.projectFS = inr (PathError "stat" "foo.yaml/x" ENOTDIR) /\
  getResources "foo.yaml/x" Sample.projectFS = Panicked.
Proof. split; reflexivity. Qed.

(** The extension is compared as it is written, and a name that is only
    an extension counts. *)
Example yaml_names :
  regexp.matchYamlSuffix "a.yaml" = true /\
  regexp.matchYamlSuffix ".yml" = true /\
  regexp.matchYamlSuffix "YAML.yml" = true /\
  regexp.matchYamlSuffix "a.YAML" = false /\
  regexp.matchYamlSuffix "a.Yml" = false /\
  regexp.matchYamlSuffix "a.yaml.md" = false /\
  regexp.matchYamlSuffix "yaml" = false.
Proof. repeat split. Qed.

Section DependenciesFacts.

Variable dependenciesForKustomization : string -> FS -> list string * option error.

(** C6. A root path that is not there.  When [os.Stat] reports it as not
    existing, [getResources] returns the nil list and that error, and
    [Dependencies] the nil list and an error that wraps it.  When [os.Stat]
    fails in another way (the path leads through a regular file, or a name
    in it is too long) no error is returned at all: [Walk] hands the
    function literal the error and a nil [FileInfo], the function ignores
    the error and calls [info.IsDir()], and [getResources] panics, and
    [Dependencies] with it.  In the project where README.md is a regular
    file that happens for the root README.md/docs, and for a root of 300
    bytes.  On an existing empty directory [getResources] returns the nil
    list and no error. *)
Theorem getResources_absent_root :
  (forall root fs,
     ~ present root fs ->
     (missing root fs /\
      exists err,
        getResources root fs = Returned ([], Some err) /\
        os.IsNotExist (Some err) = true /\
        forall k, k_Dir k = root ->
          exists err',
            Dependencies dependenciesForKustomization k fs = Returned ([], Some err') /\
            errors.IsNotExist err' = true)
     \/
     (~ missing root fs /\
      os.IsNotExist (errOf (os.Stat root fs)) = false /\
      getResources root fs = Panicked /\
      forall k, k_Dir k = root ->
        Dependencies dependenciesForKustomization k fs = Panicked)) /\
  (~ present "README.md/docs" Sample.projectFS /\
   os.Stat "README.md/docs" Sample.projectFS
     = inr (PathError "stat" "README.md/docs" ENOTDIR) /\
   getResources "README.md/docs" Sample.projectFS = Panicked /\
   Dependencies dependenciesForKustomization Sample.belowFileDeployer Sample.projectFS
     = Panicked) /\
  (~ present Sample.longName Sample.projectFS /\
   os.Stat Sample.longName Sample.projectFS
     = inr (PathError "stat" Sample.longName ENAMETOOLONG) /\
   getResources Sample.longName Sample.projectFS = Panicked) /\
  (forall root fs loc,
     resolve fs root = inl (loc, DirNode []) ->
     getResources root fs = Returned ([], None)).
Proof.
  assert (Hgeneral : forall root fs errno,
            resolve fs root = inr errno -> errno <> ENOENT ->
            os.IsNotExist (errOf (os.Stat root fs)) = false /\
            getResources root fs = Panicked).
  { intros root fs errno Hres Hne. unfold getResources, Walk, os.Stat. rewrite Hres.
    destruct errno; try congruence; split; reflexivity. }
  split; [|split; [|split; [|]]].
  - intros root fs Hnp. destruct (resolve fs root) as [[loc n]|errno] eqn:Hres.
    + exfalso. apply Hnp. exists loc, n. exact Hres.
    + destruct (Errno_eq_dec errno ENOENT) as [->|Hne].
      * left. split; [exact Hres|].
        assert (Hget : getResources root fs
                       = Returned ([], Some (PathError "stat" root ENOENT))).
        { unfold getResources, os.Stat. now rewrite Hres. }
        exists (PathError "stat" root ENOENT). split; [exact Hget|].
        split; [reflexivity|].
        intros k Hk. eexists. unfold Dependencies. rewrite Hk, Hget. split; reflexivity.
      * right. destruct (Hgeneral root fs errno Hres Hne) as [Hstat Hget].
        split; [unfold missing; congruence|]. split; [exact Hstat|].
        split; [exact Hget|].
        intros k Hk. unfold Dependencies. rewrite Hk, Hget. reflexivity.
  - split; [intros (loc & n & Hres); discriminate Hres|].
    split; [reflexivity|]. split; reflexivity.
  - split; [intros (loc & n & Hres); vm_compute in Hres; discriminate Hres|].
    split; [vm_compute; reflexivity|]. vm_compute. reflexivity.
  - intros root fs loc Hres. rewrite (getResources_resolved _ _ _ _ Hres).
    rewrite walk_dir. reflexivity.
Qed.

Lemma In_insertOne p s set : In p (stringSet.insertOne s set) <-> p = s \/ In p set.
Proof.
  induction set as [|x rest IH]; simpl.
  - intuition.
  - destruct (String.eqb_spec x s) as [->|Hne]; simpl; [intuition|].
    destruct (String.ltb s x); simpl; [intuition|].
    rewrite IH. intuition.
Qed.

Lemma In_insert p set strs :
  In p (stringSet.insert set strs) <-> In p set \/ In p strs.
Proof.
  unfold stringSet.insert. revert set. induction strs as [|s rest IH]; intros set; simpl.
  - intuition.
  - rewrite IH, In_insertOne. intuition.
Qed.

(** C7. What [Dependencies] returns: the function path as it is
    configured, when it is configured, the resources below the
    configuration directory, and the dependencies of the kustomization,
    and nothing else.  With the configuration in ./config and the function
    path ./kpt-fn, a directory holding kpt-func.yaml, the result has the
    directory kpt-fn and not the file in it, although [getResources] finds
    the file when asked for that directory. *)
Theorem Dependencies_fnPath_verbatim :
  (forall k fs files,
     Dependencies dependenciesForKustomization k fs = Returned (files, None) ->
     exists configDeps kustomizeDeps,
       getResources (k_Dir k) fs = Returned (configDeps, None) /\
       dependenciesForKustomization (k_Dir k) fs = (kustomizeDeps, None) /\
       forall p,
         In p files <->
         (nonEmpty (KptFn.FnPath (k_Fn k)) = true /\ p = KptFn.FnPath (k_Fn k))
         \/ In p configDeps \/ In p kustomizeDeps) /\
  Dependencies (fun _ _ => ([], None)) Sample.fnPathDeployer Sample.fnPathFS
    = Returned (["config/deployment.yaml"; "kpt-fn"], None) /\
  getResources "kpt-fn" Sample.fnPathFS = Returned (["kpt-fn/kpt-func.yaml"], None).
Proof.
  split; [|split; reflexivity].
  intros k fs files. unfold Dependencies.
  destruct (getResources (k_Dir k) fs) as [[configDeps [err|]]|]; try discriminate.
  destruct (dependenciesForKustomization (k_Dir k) fs) as [kustomizeDeps [err|]];
    try discriminate.
  cbv zeta. intros [= <-]. exists configDeps, kustomizeDeps.
  split; [reflexivity|]. split; [reflexivity|].
  intros p. unfold stringSet.toList. rewrite !In_insert.
  destruct (nonEmpty (KptFn.FnPath (k_Fn k))).
  - simpl. intuition.
  - simpl. intuition. discriminate.
Qed.

End DependenciesFacts.

Lemma getResources_absent_root_witness :
  ~ present "invalid_path" Sample.emptyFS /\
  missing "invalid_path" Sample.emptyFS /\
  getResources "invalid_path" Sample.emptyFS
    = Returned ([], Some (PathError "stat" "invalid_path" ENOENT)) /\
  ((missing "invalid_path" Sample.emptyFS /\
    exists err,
      getResources "invalid_path" Sample.emptyFS = Returned ([], Some err) /\
      os.IsNotExist (Some err) = true /\
      forall k, k_Dir k = "invalid_path" ->
        exists err',
          Dependencies (fun _ _ => ([], None)) k Sample.emptyFS = Returned ([], Some err') /\
          errors.IsNotExist err' = true)
   \/
   (~ missing "invalid_path" Sample.emptyFS /\
    os.IsNotExist (errOf (os.Stat "invalid_path" Sample.emptyFS)) = false /\
    getResources "invalid_path" Sample.emptyFS = Panicked /\
    forall k, k_Dir k = "invalid_path" ->
      Dependencies (fun _ _ => ([], None)) k Sample.emptyFS = Panicked)).
Proof.
  assert (Hnp : ~ present "invalid_path" Sample.emptyFS).
  { intros (loc & n & Hres). discriminate Hres. }
  split; [exact Hnp|]. split; [reflexivity|]. split; [reflexivity|].
  exact (proj1 (getResources_absent_root (fun _ _ => ([], None)))
               "invalid_path" Sample.emptyFS Hnp).
Defined.

(** *** The file system *)

Lemma nodeAt_snoc t loc name :
  nodeAt t (loc ++ [name]) =
    match nodeAt t loc with
    | Some (DirNode entries) => lookupEntry name entries
    | _ => None
    end.
Proof.
  revert t. induction loc as [|x rest IH]; intros t; simpl.
  - destruct t as [content|entries]; [reflexivity|].
    destruct (lookupEntry name entries); reflexivity.
  - destruct t as [content|entries]; [reflexivity|].
    destruct (lookupEntry x entries); [apply IH|reflexivity].
Qed.




Lemma validName_unrooted name : validName name = true -> filepath.isRooted name = false.
Proof.
  intros Hv. destruct (validName_inv _ Hv) as (_ & Hslash & _).
  destruct name as [|c rest]; [reflexivity|]. simpl in *.
  now apply orb_false_iff in Hslash.
Qed.

Lemma validName_step name :
  validName name = true ->
  String.eqb name "" || String.eqb name "." = false /\ String.eqb name ".." = false.
Proof.
  intros Hv. destruct (validName_inv _ Hv) as (H1 & _ & H2 & H3).
  apply String.eqb_neq in H1, H2, H3. now rewrite H1, H2, H3.
Qed.

Lemma validName_steps name :
  validName name = true ->
  String.eqb name "" = false /\ String.eqb name "." = false /\ String.eqb name ".." = false.
Proof.
  intros Hv. destruct (validName_inv _ Hv) as (H1 & _ & H2 & H3).
  apply String.eqb_neq in H1, H2, H3. auto.
Qed.


(** A name that is not too long is not too long as a path, alone or
    below another such name. *)
Lemma short_path name : nameTooLong name = false -> pathTooLong (String.length name) = false.
Proof.
  unfold nameTooLong, pathTooLong, NAME_MAX, PATH_MAX. intros H.
  apply Nat.ltb_ge in H. apply Nat.leb_gt. lia.
Qed.


(** Resolving a single name in the working directory. *)
Lemma resolve_name name fs :
  validName name = true -> nameTooLong name = false ->
  resolve fs name =
    match nodeAt (root fs) (cwd fs) with
    | Some (DirNode entries) =>
        match lookupEntry name entries with
        | Some child => inl (cwd fs ++ [name], child)
        | None => inr ENOENT
        end
    | Some (FileNode _) => inr ENOTDIR
    | None => inr ENOENT
    end.
Proof.
  intros Hv Hshort. destruct (validName_inv _ Hv) as (Hne & Hslash & _).
  destruct (validName_step _ Hv) as [Hdot Hdots].
  unfold resolve, startOf. apply String.eqb_neq in Hne. rewrite Hne.
  rewrite (short_path _ Hshort).
  rewrite (validName_unrooted _ Hv), (Split_single _ _ Hslash). simpl.
  destruct (nodeAt (root fs) (cwd fs)) as [[content|entries]|] eqn:Hcwd; try reflexivity.
  rewrite Hdot, Hdots, Hshort.
  destruct (lookupEntry name entries) as [child|] eqn:Hl; [|reflexivity].
  now rewrite nodeAt_snoc, Hcwd, Hl.
Qed.




(** *** The apply-directory resolver *)

(** Unfold the sequencing of the world monad. *)
Ltac run_world :=
  cbv beta iota zeta delta [mbind mret M_bind M_ret liftRead liftFS emit RunCmdOut RunCmd];
  cbn [fs events].

Lemma validName_kptHydrated : validName kptHydrated = true.
Proof. reflexivity. Qed.

Lemma short_kptHydrated : nameTooLong kptHydrated = false.
Proof. reflexivity. Qed.





Section ApplyDirFacts.

Variable env : Collaborators.



End ApplyDirFacts.



(** *** The hydration pipeline *)

Section PipelineFacts.

Variable env : Collaborators.

(** [renderManifests], stage by stage. *)
Lemma renderManifests_stages k builds w :
  renderManifests env k builds w =
    let '((registry, err), w1) := earlierStages env k w in
    match err with
    | Some err => (([], Some err), w1)
    | None =>
        let '((manifests, err), w2) := kptFnRun env k w1 in
        match err with
        | Some err => (([], Some (fmt.Errorf "running kpt functions" err)), w2)
        | None =>
            if (List.length manifests =? 0)%nat then (([], None), w2)
            else laterStages env k builds registry manifests w2
        end
    end.
Proof.
  unfold renderManifests, earlierStages, laterStages. run_world.
  destruct (GetDebugHelpersRegistry env (globalConfig k) (fs w)) as [registry [err|]];
    [reflexivity|].
  destruct (os.RemoveAll _ (fs w)) as [[err|] fs1]; [reflexivity|].
  cbn [fs events].
  destruct (os.MkdirAll _ fs1) as [[err|] fs2]; [reflexivity|].
  destruct (readConfigs env k _) as [[err|] w3]; [reflexivity|].
  destruct (kustomizeBuild env k w3) as [[err|] w4]; [reflexivity|].
  destruct (kptFnRun env k w4) as [[manifests [err|]] w5]; [reflexivity|].
  destruct (List.length manifests =? 0)%nat; [reflexivity|].
  destruct (ExcludeKptFn (lib env) manifests) as [m1 [err|]]; [reflexivity|].
  destruct (ReplaceImages env m1 builds) as [m2 [err|]]; [reflexivity|].
  reflexivity.
Qed.

(** The later stages start by entering the annotation filter. *)
Lemma laterStages_events k builds registry manifests w :
  exists evs,
    events (snd (laterStages env k builds registry manifests w))
      = events w ++ Entered StageExcludeKptFn :: evs.
Proof.
  unfold laterStages. run_world.
  destruct (ExcludeKptFn (lib env) manifests) as [m1 [err|]]; [eexists; reflexivity|].
  destruct (ReplaceImages env m1 builds) as [m2 [err|]].
  { eexists. cbn [snd events]. rewrite <- app_assoc. reflexivity. }
  assert (Htr : forall transforms m regs w0, exists evs,
             events (snd (applyTransforms transforms m builds regs w0)) = events w0 ++ evs).
  { induction transforms as [|transform rest IH]; intros m regs w0.
    - exists []. simpl. now rewrite app_nil_r.
    - simpl. run_world. destruct (transform m builds regs) as [m' [err|]].
      + eexists. reflexivity.
      + destruct (IH m' regs {| fs := fs w0;
                                events := events w0 ++ [Entered StageTransform] |})
          as [evs Hevs].
        rewrite Hevs. cbn [events]. rewrite <- app_assoc. eexists. reflexivity. }
  match goal with
  | |- context [applyTransforms ?t ?m builds ?r ?w0] =>
      destruct (Htr t m r w0) as [evs Hevs];
      destruct (applyTransforms t m builds r w0) as [[m3 [err|]] w3]
  end; cbn [snd events] in *; rewrite Hevs; cbn [events];
    rewrite <- ?app_assoc; eexists; reflexivity.
Qed.

(** C8. When the stages before it succeed and the function-mutation stage
    returns no document, [renderManifests] returns the nil list and no
    error, and so does [Deploy]; the world they leave is the world the
    function-mutation stage left, so that no later stage was entered and
    no further command was started. *)
Theorem renderManifests_short_circuit (k : KptDeployer) (builds : list Artifact)
  (w w1 w2 : World) (registry : string) :
  earlierStages env k w = ((registry, None), w1) ->
  kptFnRun env k w1 = (([], None), w2) ->
  renderManifests env k builds w = (([], None), w2) /\
  Deploy env k builds w = (([], None), w2).
Proof.
  intros Hearlier Hrun.
  assert (Hrender : renderManifests env k builds w = (([], None), w2)).
  { rewrite renderManifests_stages, Hearlier, Hrun. reflexivity. }
  split; [exact Hrender|].
  unfold Deploy. run_world. rewrite Hrender. reflexivity.
Qed.

Lemma getKptFnRunArgs_both k :
  nonEmpty (KptFn.FnPath (k_Fn k)) = true ->
  nonEmpty (KptFn.Image (k_Fn k)) = true ->
  getKptFnRunArgs k
    = ([], Some (errors.New "only one of `fn-path` or `image` may be specified")).
Proof. intros Hp Hi. unfold getKptFnRunArgs. rewrite Hp, Hi. reflexivity. Qed.

(** When [readConfigs] succeeds it has started `kpt fn source` and then
    `kpt fn sink`. *)
Lemma readConfigs_events k w w' :
  readConfigs env k w = (None, w') ->
  exists b, events w' = events w ++ [Spawned (fnSource k); Spawned (fnSink k b)].
Proof.
  unfold readConfigs. run_world.
  destruct (runProcess env _ (fs w)) as [[b [err|]] fs1]; [discriminate|].
  cbn [fs events].
  destruct (runProcess env _ fs1) as [[out [err|]] fs2]; [discriminate|].
  intros [= <-]. exists b. cbn [events]. now rewrite <- app_assoc.
Qed.

Lemma removeDryConfigs_events deps w :
  events (snd (removeDryConfigs deps w)) = events w.
Proof.
  revert w. induction deps as [|v rest IH]; intros w; [reflexivity|].
  simpl. run_world.
  destruct (os.RemoveAll _ (fs w)) as [[err|] fs1]; [reflexivity|].
  rewrite IH. reflexivity.
Qed.

(** [kustomizeBuild] starts `kustomize build` exactly when a kustomization
    config is found, and nothing else. *)
Lemma kustomizeBuild_trace k w :
  events (snd (kustomizeBuild env k w))
  = events w ++ (if kustomizationFound env k (fs w)
                 then [Spawned (kustomizeBuildCmd env k)] else []).
Proof.
  unfold kustomizeBuild, kustomizationFound. run_world. fold (kustomizeBuildCmd env k).
  destruct (findKustomizationConfig env (k_Dir k) (fs w)) as [config [err|]]; cbn [snd].
  { now rewrite app_nil_r. }
  destruct (runProcess env _ (fs w)) as [[out [err|]] fs1]; cbn [fs events]; [reflexivity|].
  destruct (dependenciesForKustomization env (k_Dir k) fs1) as [deps [err|]]; [reflexivity|].
  rewrite removeDryConfigs_events. reflexivity.
Qed.

(** When the earlier stages succeed: the working directory was reset,
    [readConfigs] started `kpt fn source` and `kpt fn sink`, and
    [kustomizeBuild] ran on the world that left, starting `kustomize build`
    exactly when a kustomization config was found there. *)
Lemma earlierStages_trace k w w1 registry :
  earlierStages env k w = ((registry, None), w1) ->
  exists fs1 fs2 w3 b,
    os.RemoveAll (filepath.Join pipeline (k_Dir k)) (fs w) = (None, fs1) /\
    os.MkdirAll (filepath.Join pipeline (k_Dir k)) fs1 = (None, fs2) /\
    readConfigs env k {| fs := fs2; events := events w |} = (None, w3) /\
    events w3 = events w ++ [Spawned (fnSource k); Spawned (fnSink k b)] /\
    kustomizeBuild env k w3 = (None, w1) /\
    events w1 = events w3 ++ (if kustomizationFound env k (fs w3)
                              then [Spawned (kustomizeBuildCmd env k)] else []).
Proof.
  unfold earlierStages. run_world.
  destruct (GetDebugHelpersRegistry env (globalConfig k) (fs w)) as [reg [err|]];
    [discriminate|].
  destruct (os.RemoveAll _ (fs w)) as [[err|] fs1] eqn:Hrm; [discriminate|].
  cbn [fs events].
  destruct (os.MkdirAll _ fs1) as [[err|] fs2] eqn:Hmk; [discriminate|].
  destruct (readConfigs env k _) as [[err|] w3] eqn:Hread; [discriminate|].
  destruct (readConfigs_events _ _ _ Hread) as [b Hev3]. cbn [events] in Hev3.
  pose proof (kustomizeBuild_trace k w3) as Hev4.
  destruct (kustomizeBuild env k w3) as [[err|] w4] eqn:Hk; [discriminate|].
  intros [= _ <-]. exists fs1, fs2, w3, b. cbn [snd] in Hev4.
  split; [reflexivity|]. split; [exact Hmk|]. split; [exact Hread|].
  split; [exact Hev3|]. split; [exact Hk|exact Hev4].
Qed.

(** C1, as the code has it.  With both the function path and the function
    image set, the function-mutation stage fails before it starts
    `kpt fn run`, and [renderManifests] returns no manifests and an error
    in the world the earlier stages left: the error of an earlier stage
    that failed, or else the error that only one of the two may be
    specified.  In that case the working directory has been reset,
    `kpt fn source` and `kpt fn sink` have been started, and after them
    `kustomize build` exactly when a kustomization config was found on the
    file system `kpt fn sink` left; nothing else has been started. *)
Theorem renderManifests_both_set (k : KptDeployer) (builds : list Artifact) (w : World) :
  nonEmpty (KptFn.FnPath (k_Fn k)) = true ->
  nonEmpty (KptFn.Image (k_Fn k)) = true ->
  (forall w1,
     kptFnRun env k w1
       = (([], Some (fmt.Errorf "getting kpt fn run args"
                       (errors.New "only one of `fn-path` or `image` may be specified"))),
          w1)) /\
  exists registry err w1,
    earlierStages env k w = ((registry, err), w1) /\
    renderManifests env k builds w
      = (([], Some (match err with Some err => err | None => bothSetError end)), w1) /\
    (err = None ->
     exists fs1 fs2 w3 b,
       os.RemoveAll (filepath.Join pipeline (k_Dir k)) (fs w) = (None, fs1) /\
       os.MkdirAll (filepath.Join pipeline (k_Dir k)) fs1 = (None, fs2) /\
       readConfigs env k {| fs := fs2; events := events w |} = (None, w3) /\
       events w3 = events w ++ [Spawned (fnSource k); Spawned (fnSink k b)] /\
       kustomizeBuild env k w3 = (None, w1) /\
       events w1 = events w3 ++ (if kustomizationFound env k (fs w3)
                                 then [Spawned (kustomizeBuildCmd env k)] else [])).
Proof.
  intros Hp Hi.
  assert (Hrun : forall w1,
             kptFnRun env k w1
             = (([], Some (fmt.Errorf "getting kpt fn run args"
                             (errors.New "only one of `fn-path` or `image` may be specified"))),
                w1)).
  { intros w1. unfold kptFnRun. rewrite (getKptFnRunArgs_both k Hp Hi). reflexivity. }
  split; [exact Hrun|].
  destruct (earlierStages env k w) as [[registry err] w1] eqn:Hearlier.
  exists registry, err, w1. split; [reflexivity|]. split.
  - rewrite renderManifests_stages, Hearlier.
    destruct err as [err|]; [reflexivity|]. rewrite Hrun. reflexivity.
  - intros ->. eapply earlierStages_trace. exact Hearlier.
Qed.

End PipelineFacts.

Lemma renderManifests_short_circuit_witness :
  let w2 :=
    {| fs := {| root := DirNode [("work", DirNode [(".pipeline", DirNode [])])];
                cwd := ["work"] |};
       events :=
         [Spawned (fnSource Sample.plainDeployer);
          Spawned (fnSink Sample.plainDeployer "");
          Spawned (CommandContext "kpt" ["fn"; "run"; ".pipeline"; "--dry-run"])] |} in
  renderManifests Sample.sampleEnv Sample.plainDeployer [] (Sample.world Sample.emptyFS)
    = (([], None), w2) /\
  Deploy Sample.sampleEnv Sample.plainDeployer [] (Sample.world Sample.emptyFS)
    = (([], None), w2).
Proof.
  apply (renderManifests_short_circuit Sample.sampleEnv Sample.plainDeployer []
           (Sample.world Sample.emptyFS)
           {| fs := {| root := DirNode [("work", DirNode [(".pipeline", DirNode [])])];
                       cwd := ["work"] |};
              events := [Spawned (fnSource Sample.plainDeployer);
                         Spawned (fnSink Sample.plainDeployer "")] |}
           _ "gcr.io/k8s-skaffold/skaffold-debug-support").
  - reflexivity.
  - reflexivity.
Defined.

(** Both options set, on an empty project: the error is returned after
    `kpt fn source .` and `kpt fn sink .pipeline` were started. *)
Lemma renderManifests_both_set_counterexample :
  nonEmpty (KptFn.FnPath (k_Fn Sample.bothDeployer)) = true /\
  nonEmpty (KptFn.Image (k_Fn Sample.bothDeployer)) = true /\
  renderManifests Sample.sampleEnv Sample.bothDeployer [] (Sample.world Sample.emptyFS)
    = (([], Some bothSetError),
       {| fs := {| root := DirNode [("work", DirNode [(".pipeline", DirNode [])])];
                   cwd := ["work"] |};
          events :=
            [Spawned {| Path := "kpt"; Args := ["fn"; "source"; "."]; Stdin := None |};
             Spawned {| Path := "kpt"; Args := ["fn"; "sink"; ".pipeline"];
                        Stdin := Some "" |}] |}) /\
  ~ (forall cmd,
       ~ In (Spawned cmd)
            (events (snd (renderManifests Sample.sampleEnv Sample.bothDeployer []
                            (Sample.world Sample.emptyFS))))).
Proof.
  split; [reflexivity|]. split; [reflexivity|]. split; [reflexivity|].
  intros Hnone.
  apply (Hnone {| Path := "kpt"; Args := ["fn"; "source"; "."]; Stdin := None |}).
  left. reflexivity.
Qed.

Lemma renderManifests_both_set_witness :
  (forall w1,
     kptFnRun Sample.kustomizeEnv Sample.bothDeployer w1
       = (([], Some (fmt.Errorf "getting kpt fn run args"
                       (errors.New "only one of `fn-path` or `image` may be specified"))),
          w1)) /\
  exists registry err w1,
    earlierStages Sample.kustomizeEnv Sample.bothDeployer (Sample.world Sample.emptyFS)
      = ((registry, err), w1) /\
    renderManifests Sample.kustomizeEnv Sample.bothDeployer [] (Sample.world Sample.emptyFS)
      = (([], Some (match err with Some err => err | None => bothSetError end)), w1) /\
    (err = None ->
     exists fs1 fs2 w3 b,
       os.RemoveAll (filepath.Join pipeline (k_Dir Sample.bothDeployer))
         (fs (Sample.world Sample.emptyFS)) = (None, fs1) /\
       os.MkdirAll (filepath.Join pipeline (k_Dir Sample.bothDeployer)) fs1 = (None, fs2) /\
       readConfigs Sample.kustomizeEnv Sample.bothDeployer
         {| fs := fs2; events := events (Sample.world Sample.emptyFS) |} = (None, w3) /\
       events w3 = events (Sample.world Sample.emptyFS)
                   ++ [Spawned (fnSource Sample.bothDeployer);
                       Spawned (fnSink Sample.bothDeployer b)] /\
       kustomizeBuild Sample.kustomizeEnv Sample.bothDeployer w3 = (None, w1) /\
       events w1 = events w3
                   ++ (if kustomizationFound Sample.kustomizeEnv Sample.bothDeployer (fs w3)
                       then [Spawned (kustomizeBuildCmd Sample.kustomizeEnv Sample.bothDeployer)]
                       else [])).
Proof.
  apply (renderManifests_both_set Sample.kustomizeEnv Sample.bothDeployer []
           (Sample.world Sample.emptyFS)).
  - reflexivity.
  - reflexivity.
Defined.

(** Both options set, with and without a kustomization: the commands that
    were started when the error comes back. *)
Example renderManifests_both_set_runs :
  renderManifests Sample.kustomizeEnv Sample.bothDeployer [] (Sample.world Sample.emptyFS)
    = (([], Some bothSetError),
       {| fs := {| root := DirNode [("work", DirNode [(".pipeline", DirNode [])])];
                   cwd := ["work"] |};
          events :=
            [Spawned {| Path := "kpt"; Args := ["fn"; "source"; "."]; Stdin := None |};
             Spawned {| Path := "kpt"; Args := ["fn"; "sink"; ".pipeline"];
                        Stdin := Some "" |};
             Spawned {| Path := "kustomize"; Args := ["build"; "-o"; ".pipeline"; "."];
                        Stdin := None |}] |}) /\
  events (snd (renderManifests Sample.sampleEnv Sample.bothDeployer []
                 (Sample.world Sample.emptyFS)))
    = [Spawned {| Path := "kpt"; Args := ["fn"; "source"; "."]; Stdin := None |};
       Spawned {| Path := "kpt"; Args := ["fn"; "sink"; ".pipeline"]; Stdin := Some "" |}].
Proof. split; reflexivity. Qed.

(** For comparison, a run in which the function-mutation stage returns one
    function configuration: the later stages are entered, and [Deploy]
    goes on to initialize and apply. *)
Example Deploy_full_run :
  fst (renderManifests Sample.sampleEnv Sample.plainDeployer []
         (Sample.world Sample.functionFS)) = (["Ta"], None) /\
  events (snd (Deploy Sample.sampleEnv Sample.plainDeployer []
                 (Sample.world Sample.functionFS)))
  = [Spawned (fnSource Sample.plainDeployer);
     Spawned (fnSink Sample.plainDeployer "");
     Spawned (CommandContext "kpt" ["fn"; "run"; ".pipeline"; "--dry-run"]);
     Entered StageExcludeKptFn;
     Entered StageReplaceImages;
     Entered StageSetLabels;
     Entered StageCollectNamespaces;
     Spawned (liveInit Sample.plainDeployer);
     Entered StageOutput;
     Spawned (CommandContext "kpt" ["live"; "apply"; ".kpt-hydrated"])].
Proof. split; reflexivity. Qed.

(** ** Part III: further properties *)

(** *** The flag lists and the argument vector *)

(** [getKptFnRunArgs] succeeds only when the function path and the image
    are not both set; the flags then start with --dry-run and end with the
    option that is set and its value. *)
Theorem getKptFnRunArgs_success (k : KptDeployer) (flags : list string) :
  getKptFnRunArgs k = (flags, None) ->
  nonEmpty (KptFn.FnPath (k_Fn k)) && nonEmpty (KptFn.Image (k_Fn k)) = false /\
  (exists rest, flags = "--dry-run" :: rest) /\
  (nonEmpty (KptFn.FnPath (k_Fn k)) = true ->
     exists front, flags = front ++ ["--fn-path"; KptFn.FnPath (k_Fn k)]) /\
  (nonEmpty (KptFn.Image (k_Fn k)) = true ->
     exists front, flags = front ++ ["--image"; KptFn.Image (k_Fn k)]).
Proof.
  unfold getKptFnRunArgs.
  destruct (KptFn.GlobalScope (k_Fn k)), (nonEmptyList (KptFn.Mount (k_Fn k))),
    (KptFn.Network (k_Fn k)), (nonEmpty (KptFn.NetworkName (k_Fn k))),
    (nonEmpty (KptFn.FnPath (k_Fn k))), (nonEmpty (KptFn.Image (k_Fn k)));
    simpl; intros [= <-];
    (split; [reflexivity|]); (split; [eexists; reflexivity|]);
    split; intros H; try discriminate H;
    match goal with
    | |- exists front, ?l = front ++ [?a; ?b] =>
        exists (removelast (removelast l)); reflexivity
    end.
Qed.

Lemma getKptFnRunArgs_success_witness :
  getKptFnRunArgs Sample2.imageDeployer
    = (["--dry-run"; "--global-scope"; "--mount"; "type=bind,src=$(pwd),dst=/source";
        "--network"; "--network-name"; "foo";
        "--image"; "gcr.io/example.com/my-fn:v1.0.0 -- foo=bar"], None) /\
  nonEmpty (KptFn.FnPath (k_Fn Sample2.imageDeployer))
    && nonEmpty (KptFn.Image (k_Fn Sample2.imageDeployer)) = false.
Proof.
  split; [reflexivity|].
  apply (getKptFnRunArgs_success Sample2.imageDeployer
           ["--dry-run"; "--global-scope"; "--mount"; "type=bind,src=$(pwd),dst=/source";
            "--network"; "--network-name"; "foo";
            "--image"; "gcr.io/example.com/my-fn:v1.0.0 -- foo=bar"]).
  reflexivity.
Defined.

Lemma flat_map_Split_spaceFree tokens :
  spaceFree tokens -> flat_map (fun v => strings.Split v space) tokens = tokens.
Proof.
  induction 1 as [|token rest Htoken _ IH]; simpl; [reflexivity|].
  now rewrite (Split_single _ _ Htoken), IH.
Qed.

(** On tokens without spaces [kptCommandArgs] is concatenation: the
    commands, the directory unless it is empty, the flags, the global
    flags, each token one argument. *)
Theorem kptCommandArgs_spaceFree (dir : string) (commands flags globalFlags : list string) :
  spaceFree commands -> spaceFree flags -> spaceFree globalFlags ->
  kptCommandArgs dir commands flags globalFlags =
    commands ++ (if nonEmpty dir then [dir] else []) ++ flags ++ globalFlags.
Proof.
  intros Hc Hf Hg. unfold kptCommandArgs. rewrite !appendSplit_flat_map.
  destruct (nonEmpty dir); rewrite ?appendSplit_flat_map;
    rewrite (flat_map_Split_spaceFree _ Hc), (flat_map_Split_spaceFree _ Hf),
      (flat_map_Split_spaceFree _ Hg); simpl; now rewrite <- ?app_assoc.
Qed.

Lemma kptCommandArgs_spaceFree_witness :
  kptCommandArgs "valid_path" ["live"; "apply"]
    ["--poll-period"; "5s"; "--reconcile-timeout"; "2m"] []
  = ["live"; "apply"] ++ ["valid_path"]
    ++ ["--poll-period"; "5s"; "--reconcile-timeout"; "2m"] ++ [].
Proof.
  apply (kptCommandArgs_spaceFree "valid_path" ["live"; "apply"]
           ["--poll-period"; "5s"; "--reconcile-timeout"; "2m"] []);
    repeat constructor.
Defined.

(** The directory is the only argument of [kptCommandArgs] that can hold a
    space: it is passed on as it is, every other argument is a piece of a
    token between spaces. *)
Theorem kptCommandArgs_arguments (dir : string) (commands flags globalFlags : list string)
  (arg : string) :
  In arg (kptCommandArgs dir commands flags globalFlags) ->
  arg = dir \/ strings.ContainsByte arg space = false.
Proof.
  unfold kptCommandArgs. rewrite !appendSplit_flat_map.
  assert (Hpieces : forall tokens,
             In arg (flat_map (fun v => strings.Split v space) tokens) ->
             strings.ContainsByte arg space = false).
  { intros tokens Hin. apply in_flat_map in Hin. destruct Hin as (v & _ & Hin).
    eapply Split_pieces. exact Hin. }
  destruct (nonEmpty dir); rewrite ?appendSplit_flat_map; simpl;
    rewrite ?in_app_iff; simpl; intuition eauto.
Qed.

Lemma kptCommandArgs_arguments_witness :
  In "my dir" (kptCommandArgs "my dir" ["live"; "apply"] ["--poll-period 5s"] []) /\
  ("my dir" = "my dir" \/ strings.ContainsByte "my dir" space = false).
Proof.
  assert (Hin : In "my dir"
                  (kptCommandArgs "my dir" ["live"; "apply"] ["--poll-period 5s"] []))
    by (simpl; auto).
  split; [exact Hin|].
  apply (kptCommandArgs_arguments "my dir" ["live"; "apply"] ["--poll-period 5s"] []
           "my dir" Hin).
Defined.

(** *** More on the function-annotation filter *)

Section FilterMore.

Variable lib : ManifestLib.

(** The filter on a concatenation: the set before is filtered, then the
    set after; the first error is the error of the whole, and the outputs
    are concatenated. *)
Theorem ExcludeKptFn_app (pre post : ManifestList) :
  ExcludeKptFn lib (pre ++ post) =
    match ExcludeKptFn lib pre with
    | (_, Some err) => ([], Some err)
    | (out1, None) =>
        match ExcludeKptFn lib post with
        | (_, Some err) => ([], Some err)
        | (out2, None) => (out1 ++ out2, None)
        end
    end.
Proof.
  rewrite !ExcludeKptFn_filterAll, filterAll_app.
  destruct (filterAll lib pre); [|reflexivity].
  destruct (filterAll lib post); reflexivity.
Qed.

Lemma filterOne_error yByte err :
  filterOne lib yByte = inr err ->
  (exists cause, decode lib yByte = inr cause /\
                 err = fmt.Errorf "unmarshaling config" cause) \/
  (exists obj, decode lib yByte = inl obj /\
               is_Some (GetAnnotations lib obj !! kptFnAnnotation) /\
               GetAnnotations lib obj !! kptFnLocalConfig = None /\
               reserialize lib obj = inr err).
Proof.
  unfold filterOne. destruct (decode lib yByte) as [obj|cause] eqn:Hd.
  - destruct (GetAnnotations lib obj !! kptFnAnnotation) eqn:Hf; [|discriminate].
    destruct (GetAnnotations lib obj !! kptFnLocalConfig) eqn:Hl; [discriminate|].
    destruct (reserialize lib obj) as [newYByte|err'] eqn:Hr; [discriminate|].
    intros [= <-]. right. exists obj. rewrite Hf. eauto.
  - intros [= <-]. left. eauto.
Qed.

(** When the filter fails it returns the nil list, and the error is
    that of one document of the set: its unmarshal error wrapped as
    "unmarshaling config", or, for a function configuration without the
    local-config annotation, the error of serializing it again, wrapped
    as "marshaling to json" or "converting json to yaml". *)
Theorem ExcludeKptFn_error (manifest out : ManifestList) (err : error) :
  ExcludeKptFn lib manifest = (out, Some err) ->
  out = [] /\
  exists yByte,
    In yByte manifest /\
    ((exists cause, decode lib yByte = inr cause /\
                    err = fmt.Errorf "unmarshaling config" cause) \/
     (exists obj cause,
        decode lib yByte = inl obj /\
        is_Some (GetAnnotations lib obj !! kptFnAnnotation) /\
        GetAnnotations lib obj !! kptFnLocalConfig = None /\
        reserialize lib obj = inr err /\
        (err = fmt.Errorf "marshaling to json" cause \/
         err = fmt.Errorf "converting json to yaml" cause))).
Proof.
  rewrite ExcludeKptFn_filterAll.
  destruct (filterAll lib manifest) as [docs|err'] eqn:Hall; [discriminate|].
  intros [= <- <-]. split; [reflexivity|].
  induction manifest as [|y rest IH]; simpl in Hall; [discriminate|].
  destruct (filterOne lib y) as [docs|e] eqn:Hone.
  - destruct (filterAll lib rest) as [out'|e] eqn:Hrest; [discriminate|].
    injection Hall as ->. destruct (IH eq_refl) as (yByte & Hin & Hcase).
    exists yByte. split; [now right|exact Hcase].
  - injection Hall as ->. exists y. split; [now left|].
    destruct (filterOne_error _ _ Hone) as [Hu|(obj & Hd & Hf & Hl & Hr)]; [now left|].
    right. unfold reserialize in Hr |- *.
    destruct (MarshalJSON lib _) as [jByte|cause] eqn:Hm.
    + destruct (JSONToYAML lib jByte) as [newYByte|cause] eqn:Hj; [discriminate|].
      exists obj, cause. rewrite Hm, Hj. injection Hr as <-. auto 8.
    + exists obj, cause. rewrite Hm. injection Hr as <-. auto 8.
Qed.

(** A function configuration without the local-config annotation comes out
    as one document that, read back, has local-config set to "true" and
    every other annotation as before, given that the libraries read back
    what they serialized. *)
Theorem ExcludeKptFn_marks_function (yByte : bytes) (obj : Unstructured lib)
  (out : ManifestList) :
  serializationRoundTrip lib ->
  decode lib yByte = inl obj ->
  is_Some (GetAnnotations lib obj !! kptFnAnnotation) ->
  GetAnnotations lib obj !! kptFnLocalConfig = None ->
  ExcludeKptFn lib [yByte] = (out, None) ->
  exists newYByte obj',
    out = [newYByte] /\
    decode lib newYByte = inl obj' /\
    GetAnnotations lib obj' !! kptFnLocalConfig = Some "true" /\
    forall key, key <> kptFnLocalConfig ->
      GetAnnotations lib obj' !! key = GetAnnotations lib obj !! key.
Proof.
  intros Hrt Hd [f Hf] Hl. rewrite ExcludeKptFn_filterAll. simpl.
  unfold filterOne. rewrite Hd, Hf, Hl.
  destruct (reserialize lib obj) as [newYByte|err] eqn:Hr; [|discriminate].
  assert (Hsome : is_Some (GetAnnotations lib obj !! kptFnAnnotation))
    by (rewrite Hf; eauto).
  destruct (Hrt obj newYByte Hsome Hl Hr) as (Hs & obj' & Hd' & Ha').
  rewrite Hs. simpl. intros [= <-]. exists newYByte, obj'.
  split; [reflexivity|]. split; [exact Hd'|]. rewrite Ha'. split.
  - apply lookup_insert_eq.
  - intros key Hkey. now apply lookup_insert_ne.
Qed.

End FilterMore.

Lemma ExcludeKptFn_error_witness :
  ExcludeKptFn Sample.sampleLib ["Pa"; "Xb"]
    = ([], Some (fmt.Errorf "unmarshaling config"
                   (ExternalError "invalid character looking for beginning of value"))) /\
  [] = ([] : ManifestList).
Proof.
  split; [reflexivity|].
  apply (ExcludeKptFn_error Sample.sampleLib ["Pa"; "Xb"] []
           (fmt.Errorf "unmarshaling config"
              (ExternalError "invalid character looking for beginning of value"))).
  reflexivity.
Defined.

Lemma ExcludeKptFn_marks_function_witness :
  exists newYByte obj',
    ["Ta"] = [newYByte] /\
    decode Sample.sampleLib newYByte = inl obj' /\
    GetAnnotations Sample.sampleLib obj' !! kptFnLocalConfig = Some "true" /\
    forall key, key <> kptFnLocalConfig ->
      GetAnnotations Sample.sampleLib obj' !! key
      = GetAnnotations Sample.sampleLib (Sample.Function None, "a") !! key.
Proof.
  apply (ExcludeKptFn_marks_function Sample.sampleLib "Fa" (Sample.Function None, "a") ["Ta"]).
  - exact sampleLib_roundTrip.
  - reflexivity.
  - exists "fake". reflexivity.
  - reflexivity.
  - reflexivity.
Defined.

(** *** More on the dependency resolver *)

(** A root that is a regular file is itself the only candidate:
    [getResources] returns the root as it was given when its base name
    matches, and nothing otherwise. *)
Theorem getResources_file_root (root : string) (fs : FS) (loc : list string)
  (content : bytes) :
  resolve fs root = inl (loc, FileNode content) ->
  getResources root fs =
    Returned (if regexp.matchYamlSuffix (filepath.Base root) then [root] else [], None).
Proof.
  intros Hres. rewrite (getResources_resolved _ _ _ _ Hres). simpl.
  unfold getResources_walkFn, regexp.MatchString_yaml. simpl.
  destruct (regexp.matchYamlSuffix (filepath.Base root)); reflexivity.
Qed.

Lemma getResources_file_root_witness :
  getResources "./foo.yaml" Sample.projectFS = Returned (["./foo.yaml"], None) /\
  getResources "README.md" Sample.projectFS = Returned ([], None).
Proof.
  split.
  - apply (getResources_file_root "./foo.yaml" Sample.projectFS ["home"; "p"; "foo.yaml"] "").
    reflexivity.
  - apply (getResources_file_root "README.md" Sample.projectFS ["home"; "p"; "README.md"] "").
    reflexivity.
Defined.

(** A root below a regular file: [os.Stat] fails with ENOTDIR, which is
    not a not-exist error, the walk function is called with a nil
    [FileInfo], and [getResources], and [Dependencies] with it, panic
    instead of returning an error. *)
Theorem getResources_not_a_directory
  (dependenciesForKustomization : string -> FS -> list string * option error)
  (root : string) (fs : FS) :
  resolve fs root = inr ENOTDIR ->
  getResources root fs = Panicked /\
  forall k, k_Dir k = root -> Dependencies dependenciesForKustomization k fs = Panicked.
Proof.
  intros Hres.
  assert (Hget : getResources root fs = Panicked).
  { unfold getResources, os.Stat, Walk. rewrite Hres. reflexivity. }
  split; [exact Hget|].
  intros k Hk. unfold Dependencies. now rewrite Hk, Hget.
Qed.

Lemma getResources_not_a_directory_witness :
  getResources "README.md/docs" Sample.projectFS = Panicked /\
  forall k, k_Dir k = "README.md/docs" ->
    Dependencies (fun _ _ => ([], None)) k Sample.projectFS = Panicked.
Proof.
  apply (getResources_not_a_directory (fun _ _ => ([], None)) "README.md/docs"
           Sample.projectFS).
  reflexivity.
Defined.

(** The walk is recursive: what [getResources] finds from a directory of
    the root, at the path [Walk] gives that directory, it also finds from
    the root. *)
Theorem getResources_subdirectory (root : string) (fs : FS)
  (loc loc' : list string) (entries : list (string * node)) (name : string) (child : node)
  (files subfiles : list string) :
  resolve fs root = inl (loc, DirNode entries) ->
  In (name, child) entries ->
  resolve fs (filepath.Join root name) = inl (loc', child) ->
  getResources root fs = Returned (files, None) ->
  getResources (filepath.Join root name) fs = Returned (subfiles, None) ->
  forall p, In p subfiles -> In p files.
Proof.
  intros Hroot Hin Hsub.
  rewrite (getResources_resolved _ _ _ _ Hroot), (getResources_resolved _ _ _ _ Hsub).
  destruct (walk_getResources (DirNode entries) root []) as (more & Hw & Hmore).
  destruct (walk_getResources child (filepath.Join root name) []) as (more' & Hw' & Hmore').
  rewrite Hw, Hw'. intros [= <-] [= <-] p Hp.
  apply Hmore. apply Hmore' in Hp. destruct Hp as (names & Hat & Hmatch & ->).
  exists (name :: names). split; [econstructor; eauto|]. split; [exact Hmatch|reflexivity].
Qed.

Lemma getResources_subdirectory_witness :
  getResources "." Sample.fnPathFS
    = Returned (["config/deployment.yaml"; "kpt-fn/kpt-func.yaml"], None) /\
  getResources (filepath.Join "." "config") Sample.fnPathFS
    = Returned (["config/deployment.yaml"], None) /\
  In "config/deployment.yaml" ["config/deployment.yaml"; "kpt-fn/kpt-func.yaml"].
Proof.
  split; [reflexivity|]. split; [reflexivity|].
  apply (getResources_subdirectory "." Sample.fnPathFS ["work"] ["work"; "config"]
           [("config", DirNode [("deployment.yaml", FileNode "")]);
            ("kpt-fn", DirNode [("kpt-func.yaml", FileNode "")])]
           "config" (DirNode [("deployment.yaml", FileNode "")])
           ["config/deployment.yaml"; "kpt-fn/kpt-func.yaml"] ["config/deployment.yaml"]).
  - reflexivity.
  - left. reflexivity.
  - reflexivity.
  - reflexivity.
  - reflexivity.
  - left. reflexivity.
Defined.

(** When [Dependencies] returns an error it returns the nil list, and the
    error is the error of [getResources] on the configuration directory,
    wrapped as "finding dependencies in <dir>", or the error of
    [dependenciesForKustomization], wrapped as "finding kustomization
    directly under <dir>"; the function path is never looked up. *)
Theorem Dependencies_error
  (dependenciesForKustomization : string -> FS -> list string * option error)
  (k : KptDeployer) (fs : FS) (files : list string) (err : error) :
  Dependencies dependenciesForKustomization k fs = Returned (files, Some err) ->
  files = [] /\
  ((exists configDeps cause,
      getResources (k_Dir k) fs = Returned (configDeps, Some cause) /\
      err = fmt.Errorf ("finding dependencies in " +:+ k_Dir k) cause) \/
   (exists configDeps kustomizeDeps cause,
      getResources (k_Dir k) fs = Returned (configDeps, None) /\
      dependenciesForKustomization (k_Dir k) fs = (kustomizeDeps, Some cause) /\
      err = fmt.Errorf ("finding kustomization directly under " +:+ k_Dir k) cause)).
Proof.
  unfold Dependencies.
  destruct (getResources (k_Dir k) fs) as [[configDeps [cause|]]|]; try discriminate.
  - intros [= <- <-]. split; [reflexivity|]. left. eauto.
  - destruct (dependenciesForKustomization (k_Dir k) fs) as [kustomizeDeps [cause|]];
      try discriminate.
    intros [= <- <-]. split; [reflexivity|]. right. eauto 6.
Qed.

Lemma Dependencies_error_witness :
  ([] : list string) = [] /\
  ((exists configDeps cause,
      getResources "config" Sample.fnPathFS = Returned (configDeps, Some cause) /\
      fmt.Errorf "finding kustomization directly under config" (ExternalError "bad yaml")
      = fmt.Errorf ("finding dependencies in " +:+ "config") cause) \/
   (exists configDeps kustomizeDeps cause,
      getResources "config" Sample.fnPathFS = Returned (configDeps, None) /\
      (fun (_ : string) (_ : FS) => (([] : list string), Some (ExternalError "bad yaml")))
        "config" Sample.fnPathFS = (kustomizeDeps, Some cause) /\
      fmt.Errorf "finding kustomization directly under config" (ExternalError "bad yaml")
      = fmt.Errorf ("finding kustomization directly under " +:+ "config") cause)).
Proof.
  apply (Dependencies_error (fun _ _ => ([], Some (ExternalError "bad yaml")))
           Sample.fnPathDeployer Sample.fnPathFS []
           (fmt.Errorf "finding kustomization directly under config"
              (ExternalError "bad yaml"))).
  reflexivity.
Defined.

(** *** More on the apply-directory resolver and on clean-up *)

Lemma nonEmpty_neq s : s <> "" -> nonEmpty s = true.
Proof. destruct s; [congruence|reflexivity]. Qed.

Lemma MkdirAll_file name fs loc content :
  validName name = true -> nameTooLong name = false ->
  resolve fs name = inl (loc, FileNode content) ->
  os.MkdirAll name fs = (Some (PathError "mkdir" name ENOTDIR), fs).
Proof.
  intros Hv Hshort. destruct (validName_inv _ Hv) as (Hne & Hslash & _).
  destruct (validName_steps _ Hv) as (Hempty & Hdot & Hdots).
  rewrite (resolve_name name fs Hv Hshort).
  unfold os.MkdirAll, startOf. apply String.eqb_neq in Hne. rewrite Hne.
  rewrite (validName_unrooted _ Hv), (Split_single _ _ Hslash). simpl.
  destruct (nodeAt (root fs) (cwd fs)) as [[c|es]|] eqn:Hcwd; try discriminate.
  rewrite Hempty, Nat.add_0_r, (short_path _ Hshort), Hdot, Hdots, Hshort.
  destruct (lookupEntry name es) as [child|] eqn:Hl; [|discriminate].
  intros [= _ ->]. rewrite nodeAt_snoc, Hcwd, Hl. now destruct fs.
Qed.

Section ApplyDirMore.

Variable env : Collaborators.

(** An explicit apply directory that [os.Stat] does not report as missing
    is returned as it is configured, whatever is there, a directory or a
    regular file; the world is left as it is: nothing is created and no
    command is started. *)
Theorem getApplyDir_explicit_present (k : KptDeployer) (w : World) :
  KptApplyInventory.Dir (KptLive.Apply (k_Live k)) <> "" ->
  ~ missing (KptApplyInventory.Dir (KptLive.Apply (k_Live k))) (fs w) ->
  getApplyDir env k w = ((KptApplyInventory.Dir (KptLive.Apply (k_Live k)), None), w).
Proof.
  intros Hne Hpresent. unfold getApplyDir.
  apply String.eqb_neq in Hne. rewrite Hne. cbn [negb]. run_world.
  unfold missing in Hpresent. unfold os.Stat.
  destruct (resolve (fs w) _) as [[loc n]|[]]; try reflexivity. congruence.
Qed.

(** Without an apply directory, when .kpt-hydrated is a regular file,
    [getApplyDir] returns the error of [MkdirAll], wrapped, and starts no
    command. *)
Theorem getApplyDir_blocked (k : KptDeployer) (w : World) (loc : list string)
  (content : bytes) :
  KptApplyInventory.Dir (KptLive.Apply (k_Live k)) = "" ->
  resolve (fs w) kptHydrated = inl (loc, FileNode content) ->
  getApplyDir env k w =
    (("", Some (fmt.Errorf "applyDir was unspecified. creating applyDir"
                  (PathError "mkdir" kptHydrated ENOTDIR))), w).
Proof.
  intros Hdir Hfile. unfold getApplyDir. rewrite Hdir, String.eqb_refl. cbn [negb].
  run_world. rewrite (MkdirAll_file _ _ _ _ validName_kptHydrated short_kptHydrated Hfile).
  now destruct w.
Qed.

(** [Cleanup] with an explicit apply directory that [os.Stat] reports as
    not existing (ENOENT) returns that error wrapped as "getting applyDir"
    and starts no command.  (An apply directory that is absent in another
    way, below a regular file, is not [missing]: [Cleanup] goes on with
    it.) *)
Theorem Cleanup_missing_applyDir (k : KptDeployer) (w : World) :
  KptApplyInventory.Dir (KptLive.Apply (k_Live k)) <> "" ->
  missing (KptApplyInventory.Dir (KptLive.Apply (k_Live k))) (fs w) ->
  Cleanup env k w =
    (Some (fmt.Errorf "getting applyDir"
             (PathError "stat" (KptApplyInventory.Dir (KptLive.Apply (k_Live k))) ENOENT)),
     w).
Proof.
  intros Hne Hmiss. unfold Cleanup, getApplyDir.
  apply String.eqb_neq in Hne. rewrite Hne. cbn [negb]. run_world.
  unfold missing in Hmiss. unfold os.Stat. rewrite Hmiss. reflexivity.
Qed.

(** [Cleanup] with an explicit apply directory that is there starts one
    command, kpt live destroy with the directory as one argument, and
    returns the error of that command as it is. *)
Theorem Cleanup_explicit (k : KptDeployer) (w : World) :
  let applyDir := KptApplyInventory.Dir (KptLive.Apply (k_Live k)) in
  applyDir <> "" ->
  ~ missing applyDir (fs w) ->
  Cleanup env k w =
    let '((_, err), fs') := runProcess env (liveDestroy applyDir) (fs w) in
    (err, {| fs := fs'; events := events w ++ [Spawned (liveDestroy applyDir)] |}).
Proof.
  intros applyDir Hne Hpresent. subst applyDir.
  assert (Hargs : kptCommandArgs (KptApplyInventory.Dir (KptLive.Apply (k_Live k)))
                    ["live"; "destroy"] [] []
                  = ["live"; "destroy"; KptApplyInventory.Dir (KptLive.Apply (k_Live k))]).
  { unfold kptCommandArgs. rewrite (nonEmpty_neq _ Hne). reflexivity. }
  assert (Hget : getApplyDir env k w
                 = ((KptApplyInventory.Dir (KptLive.Apply (k_Live k)), None), w)).
  { unfold getApplyDir. pose proof Hne as Hneb.
    apply String.eqb_neq in Hneb. rewrite Hneb. cbn [negb]. run_world.
    unfold missing in Hpresent. unfold os.Stat.
    destruct (resolve (fs w) _) as [[loc n]|[]]; try reflexivity. congruence. }
  unfold Cleanup. run_world. rewrite Hget, Hargs.
  fold (liveDestroy (KptApplyInventory.Dir (KptLive.Apply (k_Live k)))).
  destruct (runProcess env _ (fs w)) as [[out [err|]] fs']; reflexivity.
Qed.

End ApplyDirMore.

Lemma getApplyDir_explicit_present_witness :
  getApplyDir Sample.sampleEnv Sample2.validDeployer (Sample.world Sample2.appliedFS)
    = (("valid_path", None), Sample.world Sample2.appliedFS).
Proof.
  apply (getApplyDir_explicit_present Sample.sampleEnv Sample2.validDeployer
           (Sample.world Sample2.appliedFS)).
  - discriminate.
  - discriminate.
Defined.

Lemma getApplyDir_blocked_witness :
  getApplyDir Sample.sampleEnv Sample.plainDeployer (Sample.world Sample2.appliedFS)
    = (("", Some (fmt.Errorf "applyDir was unspecified. creating applyDir"
                    (PathError "mkdir" kptHydrated ENOTDIR))),
       Sample.world Sample2.appliedFS).
Proof.
  apply (getApplyDir_blocked Sample.sampleEnv Sample.plainDeployer
           (Sample.world Sample2.appliedFS) ["work"; ".kpt-hydrated"] "").
  - reflexivity.
  - reflexivity.
Defined.

Lemma Cleanup_missing_applyDir_witness :
  Cleanup Sample.sampleEnv Sample.explicitDeployer (Sample.world Sample.emptyFS)
    = (Some (fmt.Errorf "getting applyDir" (PathError "stat" "invalid_path" ENOENT)),
       Sample.world Sample.emptyFS).
Proof.
  apply (Cleanup_missing_applyDir Sample.sampleEnv Sample.explicitDeployer
           (Sample.world Sample.emptyFS)).
  - discriminate.
  - reflexivity.
Defined.

Lemma Cleanup_explicit_witness :
  Cleanup Sample.sampleEnv Sample2.validDeployer (Sample.world Sample2.appliedFS)
    = (None,
       {| fs := Sample2.appliedFS;
          events := [Spawned (CommandContext "kpt" ["live"; "destroy"; "valid_path"])] |}).
Proof.
  apply (Cleanup_explicit Sample.sampleEnv Sample2.validDeployer
           (Sample.world Sample2.appliedFS)).
  - discriminate.
  - discriminate.
Defined.

(** *** More on the hydration pipeline and on deployment *)

Lemma commands_app evs1 evs2 : commands (evs1 ++ evs2) = commands evs1 ++ commands evs2.
Proof.
  induction evs1 as [|[cmd|s|e] rest IH]; simpl; [reflexivity| |exact IH|exact IH].
  now rewrite IH.
Qed.

Lemma appended_refl w : appended w w [].
Proof. exists []. split; [now rewrite app_nil_r|reflexivity]. Qed.

Lemma appended_trans w1 w2 w3 cs1 cs2 :
  appended w1 w2 cs1 -> appended w2 w3 cs2 -> appended w1 w3 (cs1 ++ cs2).
Proof.
  intros (e1 & H1 & <-) (e2 & H2 & <-). exists (e1 ++ e2).
  split; [now rewrite H2, H1, app_assoc|apply commands_app].
Qed.

Lemma appended_same w fs' : appended w {| fs := fs'; events := events w |} [].
Proof. exists []. split; [cbn [events]; now rewrite app_nil_r|reflexivity]. Qed.

Lemma appended_events w fs' evs :
  appended w {| fs := fs'; events := events w ++ evs |} (commands evs).
Proof. exists evs. split; reflexivity. Qed.

(** A world written out with its events. *)
Ltac by_events :=
  cbn [fst snd fs events]; rewrite <- ?app_assoc;
  eexists; split; [reflexivity|reflexivity].

Section PipelineMore.

Variable env : Collaborators.

(** When [readConfigs] succeeds, both commands succeeded: kpt fn source on
    the file system as it was, and kpt fn sink on the file system that
    left, with the output of the first on its standard input. *)
Theorem readConfigs_pipe (k : KptDeployer) (w w' : World) :
  readConfigs env k w = (None, w') ->
  exists b fs1 out fs2,
    runProcess env (fnSource k) (fs w) = ((b, None), fs1) /\
    runProcess env (fnSink k b) fs1 = ((out, None), fs2) /\
    w' = {| fs := fs2;
            events := events w ++ [Spawned (fnSource k); Spawned (fnSink k b)] |}.
Proof.
  unfold readConfigs. run_world. fold (fnSource k).
  destruct (runProcess env (fnSource k) (fs w)) as [[b [err|]] fs1] eqn:Hsource;
    [discriminate|].
  cbn [fs events Path Args CommandContext].
  change {| Path := "kpt";
            Args := kptCommandArgs (filepath.Join pipeline (k_Dir k)) ["fn"; "sink"] [] [];
            Stdin := Some b |} with (fnSink k b).
  destruct (runProcess env (fnSink k b) fs1) as [[out [err|]] fs2] eqn:Hsink;
    [discriminate|].
  intros [= <-]. exists b, fs1, out, fs2. split; [reflexivity|]. split; [exact Hsink|].
  cbn [events]. now rewrite <- app_assoc.
Qed.

Lemma readConfigs_commands k w :
  exists b,
    appended w (snd (readConfigs env k w)) [fnSource k] /\
    fst (readConfigs env k w) <> None
    \/ appended w (snd (readConfigs env k w)) [fnSource k; fnSink k b].
Proof.
  unfold readConfigs. run_world. fold (fnSource k).
  destruct (runProcess env (fnSource k) (fs w)) as [[b [err|]] fs1].
  - exists "". left. split; [|discriminate].
    apply (appended_events w fs1 [Spawned (fnSource k)]).
  - cbn [fs events Path Args CommandContext].
    change {| Path := "kpt";
              Args := kptCommandArgs (filepath.Join pipeline (k_Dir k)) ["fn"; "sink"] [] [];
              Stdin := Some b |} with (fnSink k b).
    exists b. right.
    destruct (runProcess env (fnSink k b) fs1) as [[out [err|]] fs2];
      cbn [snd]; rewrite <- app_assoc;
      apply (appended_events w fs2 [Spawned (fnSource k); Spawned (fnSink k b)]).
Qed.

Lemma removeDryConfigs_appended deps w : appended w (snd (removeDryConfigs deps w)) [].
Proof.
  exists []. split; [|reflexivity]. rewrite removeDryConfigs_events. now rewrite app_nil_r.
Qed.

Lemma kustomizeBuild_commands k w :
  exists withKustomize,
    appended w (snd (kustomizeBuild env k w))
      (if withKustomize : bool then [kustomizeBuildCmd env k] else []).
Proof.
  unfold kustomizeBuild. run_world. fold (kustomizeBuildCmd env k).
  destruct (findKustomizationConfig env (k_Dir k) (fs w)) as [config [err|]].
  { exists false. apply appended_refl. }
  exists true.
  destruct (runProcess env _ (fs w)) as [[out [err|]] fs1]; cbn [fs events].
  { apply (appended_events w fs1 [Spawned (kustomizeBuildCmd env k)]). }
  destruct (dependenciesForKustomization env (k_Dir k) fs1) as [deps [err|]].
  { apply (appended_events w fs1 [Spawned (kustomizeBuildCmd env k)]). }
  eapply (appended_trans w _ _ [kustomizeBuildCmd env k] []).
  - apply (appended_events w fs1 [Spawned (kustomizeBuildCmd env k)]).
  - apply removeDryConfigs_appended.
Qed.

Lemma kptFnRun_commands k w :
  appended w (snd (kptFnRun env k w)) [] /\ snd (getKptFnRunArgs k) <> None
  \/ appended w (snd (kptFnRun env k w)) [fnRun (fst (getKptFnRunArgs k))].
Proof.
  unfold kptFnRun. destruct (getKptFnRunArgs k) as [flags [err|]].
  - left. split; [apply appended_refl|discriminate].
  - right. run_world. fold (fnRun flags). cbn [fst].
    destruct (runProcess env (fnRun flags) (fs w)) as [[out [err|]] fs1];
      apply (appended_events w fs1 [Spawned (fnRun flags)]).
Qed.

Lemma applyTransforms_appended transforms manifests builds registries w :
  appended w (snd (applyTransforms transforms manifests builds registries w)) [].
Proof.
  revert manifests w. induction transforms as [|transform rest IH]; intros manifests w.
  - apply appended_refl.
  - simpl. run_world. destruct (transform manifests builds registries) as [m' [err|]].
    + apply (appended_events w (fs w) [Entered StageTransform]).
    + eapply (appended_trans w _ _ [] []); [|apply IH].
      apply (appended_events w (fs w) [Entered StageTransform]).
Qed.

Lemma laterStages_appended k builds registry manifests w :
  appended w (snd (laterStages env k builds registry manifests w)) [].
Proof.
  unfold laterStages. run_world.
  destruct (ExcludeKptFn (lib env) manifests) as [m1 [err|]]; [by_events|].
  destruct (ReplaceImages env m1 builds) as [m2 [err|]]; [by_events|].
  match goal with
  | |- context [applyTransforms ?t ?m builds ?r ?w0] =>
      pose proof (applyTransforms_appended t m builds r w0) as Htr;
      assert (Hw0 : appended w w0 []) by by_events;
      destruct (applyTransforms t m builds r w0) as [[m3 [err|]] w3]
  end; cbn [snd fs events] in *.
  - apply (appended_trans w _ w3 [] [] Hw0 Htr).
  - apply (appended_trans w w3 _ [] []).
    + apply (appended_trans w _ w3 [] [] Hw0 Htr).
    + by_events.
Qed.

Lemma earlierStages_commands k w :
  exists b withKustomize cs,
    appended w (snd (earlierStages env k w)) cs /\
    (snd (fst (earlierStages env k w)) = None ->
     cs = fnSource k :: fnSink k b
          :: (if withKustomize : bool then [kustomizeBuildCmd env k] else [])) /\
    exists rest,
      fnSource k :: fnSink k b
      :: (if withKustomize then [kustomizeBuildCmd env k] else []) = cs ++ rest.
Proof.
  unfold earlierStages. run_world.
  destruct (GetDebugHelpersRegistry env (globalConfig k) (fs w)) as [reg [err|]].
  { exists "", false, []. split; [apply appended_refl|]. split; [discriminate|]. eauto. }
  destruct (os.RemoveAll _ (fs w)) as [[err|] fs1]; cbn [fs events].
  { exists "", false, []. split; [apply appended_same|].
    split; [discriminate|]. eauto. }
  destruct (os.MkdirAll _ fs1) as [[err|] fs2].
  { exists "", false, []. split; [apply appended_same|].
    split; [discriminate|]. eauto. }
  set (w2 := {| fs := fs2; events := events w |}).
  assert (Hw2 : appended w w2 []) by apply appended_same.
  destruct (readConfigs_commands k w2) as [b Hread].
  destruct (readConfigs env k w2) as [[err|] w3]; cbn [fst snd] in Hread.
  { destruct Hread as [[Hread _]|Hread].
    - exists b, false, [fnSource k]. split; [|split; [discriminate|]].
      + apply (appended_trans w w2 w3 [] _ Hw2 Hread).
      + eexists. reflexivity.
    - exists b, false, [fnSource k; fnSink k b]. split; [|split; [discriminate|]].
      + apply (appended_trans w w2 w3 [] _ Hw2 Hread).
      + exists []. reflexivity. }
  destruct Hread as [[_ Hcontra]|Hread]; [congruence|].
  destruct (kustomizeBuild_commands k w3) as [withKustomize Hk].
  assert (Hall : appended w (snd (kustomizeBuild env k w3))
                   (fnSource k :: fnSink k b
                    :: (if withKustomize then [kustomizeBuildCmd env k] else []))).
  { eapply (appended_trans w w3 _ [fnSource k; fnSink k b] _); [|exact Hk].
    apply (appended_trans w w2 w3 [] _ Hw2 Hread). }
  exists b, withKustomize, (fnSource k :: fnSink k b
                            :: (if withKustomize then [kustomizeBuildCmd env k] else [])).
  destruct (kustomizeBuild env k w3) as [[err|] w4]; cbn [fst snd] in *.
  - split; [exact Hall|]. split; [discriminate|]. exists []. now rewrite app_nil_r.
  - split; [exact Hall|]. split; [reflexivity|]. exists []. now rewrite app_nil_r.
Qed.

(** The commands [renderManifests] starts.  In every run they are a
    beginning of the list kpt fn source, kpt fn sink, kustomize build, kpt
    fn run, with or without kustomize build: no other command, none twice,
    and no kpt live command.  When the stages before the function run
    succeed and the flags of the function run are valid, the whole list is
    started, whatever the function run and the later stages return, with
    kustomize build in it exactly when a kustomization config was found on
    the file system kpt fn sink left. *)
Theorem renderManifests_commands (k : KptDeployer) (builds : list Artifact) (w : World) :
  (exists b withKustomize cs rest,
     appended w (snd (renderManifests env k builds w)) cs /\
     hydrationPlan env k b withKustomize = cs ++ rest) /\
  (forall registry w1,
     earlierStages env k w = ((registry, None), w1) ->
     snd (getKptFnRunArgs k) = None ->
     exists b w3,
       events w3 = events w ++ [Spawned (fnSource k); Spawned (fnSink k b)] /\
       kustomizeBuild env k w3 = (None, w1) /\
       appended w (snd (renderManifests env k builds w))
         (hydrationPlan env k b (kustomizationFound env k (fs w3)))).
Proof.
  split; [|intros registry w1 Hearlier Hflags].
  2: {
    destruct (earlierStages_trace env k w w1 registry Hearlier)
      as (fs1 & fs2 & w3 & b & _ & _ & _ & Hev3 & Hk & Hev1).
    exists b, w3. split; [exact Hev3|]. split; [exact Hk|].
    assert (Happ : appended w w1
                     (fnSource k :: fnSink k b
                      :: (if kustomizationFound env k (fs w3)
                          then [kustomizeBuildCmd env k] else []))).
    { exists ([Spawned (fnSource k); Spawned (fnSink k b)]
              ++ (if kustomizationFound env k (fs w3)
                  then [Spawned (kustomizeBuildCmd env k)] else [])).
      split; [rewrite Hev1, Hev3, <- app_assoc; reflexivity|].
      destruct (kustomizationFound env k (fs w3)); reflexivity. }
    rewrite renderManifests_stages, Hearlier.
    destruct (kptFnRun_commands k w1) as [[_ Herr]|Hrun]; [congruence|].
    assert (Hfull : forall w',
               appended (snd (kptFnRun env k w1)) w' [] ->
               appended w w' (hydrationPlan env k b (kustomizationFound env k (fs w3)))).
    { intros w' Hrest.
      pose proof (appended_trans _ _ _ _ _ Happ
                    (appended_trans _ _ _ _ _ Hrun Hrest)) as Hall.
      rewrite app_nil_r in Hall. exact Hall. }
    destruct (kptFnRun env k w1) as [[manifests [err|]] w2]; cbn [snd] in *.
    - apply Hfull, appended_refl.
    - destruct (List.length manifests =? 0)%nat.
      + apply Hfull, appended_refl.
      + apply Hfull, laterStages_appended. }
  rewrite renderManifests_stages.
  destruct (earlierStages_commands k w) as (b & withKustomize & cs & Happ & Hok & rest & Hrest).
  exists b, withKustomize. unfold hydrationPlan.
  destruct (earlierStages env k w) as [[registry [err|]] w1]; cbn [fst snd] in *.
  { exists cs, (rest ++ [fnRun (fst (getKptFnRunArgs k))]). split; [exact Happ|].
    rewrite app_assoc, <- Hrest. reflexivity. }
  specialize (Hok eq_refl). subst cs.
  destruct (kptFnRun_commands k w1) as [[Hrun Herr]|Hrun].
  - destruct (kptFnRun env k w1) as [[manifests [err|]] w2] eqn:Hcall; cbn [snd] in *.
    + eexists _, [fnRun (fst (getKptFnRunArgs k))]. split.
      * apply (appended_trans w w1 w2 _ [] Happ Hrun).
      * rewrite app_nil_r. reflexivity.
    + exfalso. revert Hcall. unfold kptFnRun.
      destruct (getKptFnRunArgs k) as [flags [e|]]; [|cbn in Herr; congruence].
      run_world. discriminate.
  - assert (Hfull : forall w', appended w1 (snd (kptFnRun env k w1)) [fnRun (fst (getKptFnRunArgs k))] ->
                               appended (snd (kptFnRun env k w1)) w' [] ->
                               appended w w'
                                 ((fnSource k :: fnSink k b
                                   :: (if withKustomize then [kustomizeBuildCmd env k] else []))
                                  ++ [fnRun (fst (getKptFnRunArgs k))] ++ [])).
    { intros w' H1 H2. apply (appended_trans w w1 w' _ _ Happ).
      apply (appended_trans w1 _ w' _ _ H1 H2). }
    destruct (kptFnRun env k w1) as [[manifests [err|]] w2]; cbn [snd] in *.
    + eexists _, []. split; [apply (Hfull w2 Hrun (appended_refl w2))|].
      rewrite !app_nil_r. reflexivity.
    + destruct (List.length manifests =? 0)%nat.
      * eexists _, []. split; [apply (Hfull w2 Hrun (appended_refl w2))|].
        rewrite !app_nil_r. reflexivity.
      * eexists _, []. split;
          [apply (Hfull _ Hrun (laterStages_appended k builds registry manifests w2))|].
        rewrite !app_nil_r. reflexivity.
Qed.

End PipelineMore.

Lemma renderManifests_commands_witness :
  let w := Sample.world Sample.emptyFS in
  let r := earlierStages Sample.kustomizeEnv Sample.plainDeployer w in
  r = ((fst (fst r), None), snd r) /\
  snd (getKptFnRunArgs Sample.plainDeployer) = None /\
  exists b w3,
    events w3 = events w ++ [Spawned (fnSource Sample.plainDeployer);
                             Spawned (fnSink Sample.plainDeployer b)] /\
    kustomizeBuild Sample.kustomizeEnv Sample.plainDeployer w3 = (None, snd r) /\
    appended w (snd (renderManifests Sample.kustomizeEnv Sample.plainDeployer [] w))
      (hydrationPlan Sample.kustomizeEnv Sample.plainDeployer b
         (kustomizationFound Sample.kustomizeEnv Sample.plainDeployer (fs w3))).
Proof.
  intros w r. split; [reflexivity|]. split; [reflexivity|].
  apply (proj2 (renderManifests_commands Sample.kustomizeEnv Sample.plainDeployer [] w)
           (fst (fst r)) (snd r)).
  - reflexivity.
  - reflexivity.
Defined.

(** The commands of a run with a kustomization, and of a run without. *)
Example renderManifests_runs :
  commands (events (snd (renderManifests Sample.kustomizeEnv Sample.plainDeployer []
                           (Sample.world Sample.emptyFS))))
    = [CommandContext "kpt" ["fn"; "source"; "."];
       {| Path := "kpt"; Args := ["fn"; "sink"; ".pipeline"]; Stdin := Some "" |};
       CommandContext "kustomize" ["build"; "-o"; ".pipeline"; "."];
       CommandContext "kpt" ["fn"; "run"; ".pipeline"; "--dry-run"]] /\
  commands (events (snd (renderManifests Sample.sampleEnv Sample.plainDeployer []
                           (Sample.world Sample.emptyFS))))
    = [CommandContext "kpt" ["fn"; "source"; "."];
       {| Path := "kpt"; Args := ["fn"; "sink"; ".pipeline"]; Stdin := Some "" |};
       CommandContext "kpt" ["fn"; "run"; ".pipeline"; "--dry-run"]].
Proof. split; reflexivity. Qed.

Lemma readConfigs_pipe_witness :
  exists b fs1 out fs2,
    runProcess Sample.sampleEnv (fnSource Sample.plainDeployer) Sample.emptyFS
      = ((b, None), fs1) /\
    runProcess Sample.sampleEnv (fnSink Sample.plainDeployer b) fs1 = ((out, None), fs2) /\
    {| fs := Sample.emptyFS;
       events := [Spawned (fnSource Sample.plainDeployer);
                  Spawned (fnSink Sample.plainDeployer "")] |}
    = {| fs := fs2;
         events := events (Sample.world Sample.emptyFS)
                   ++ [Spawned (fnSource Sample.plainDeployer);
                       Spawned (fnSink Sample.plainDeployer b)] |}.
Proof.
  apply (readConfigs_pipe Sample.sampleEnv Sample.plainDeployer (Sample.world Sample.emptyFS)).
  reflexivity.
Defined.

Section DeployTail.

Variable env : Collaborators.

(** [Deploy], with its tail apart. *)
Lemma Deploy_tail k builds w :
  Deploy env k builds w =
    let '((manifests, err), w1) := renderManifests env k builds w in
    match err with
    | Some err => (([], Some err), w1)
    | None =>
        if (List.length manifests =? 0)%nat then (([], None), w1)
        else
          applyTail env k manifests (fst (CollectNamespaces env manifests))
            {| fs := fs w1;
               events := events w1
                         ++ namespaceEvents (snd (CollectNamespaces env manifests)) |}
    end.
Proof.
  unfold Deploy, applyTail, namespaceEvents. run_world.
  destruct (renderManifests env k builds w) as [[manifests [err|]] w1]; [reflexivity|].
  destruct (List.length manifests =? 0)%nat; [reflexivity|].
  destruct (CollectNamespaces env manifests) as [namespaces [nsErr|]];
    cbv beta iota zeta; cbn [fst snd fs events]; rewrite <- ?app_assoc; reflexivity.
Qed.

(** The tail of [Deploy] does the same to the file system and starts the
    same commands whatever events are on record. *)
Lemma applyTail_frame k manifests namespaces fs0 :
  exists r fs' evs,
    forall evs0,
      applyTail env k manifests namespaces {| fs := fs0; events := evs0 |}
      = (r, {| fs := fs'; events := evs0 ++ evs |}).
Proof.
  assert (Hget : exists r fs' evs, forall evs0,
             getApplyDir env k {| fs := fs0; events := evs0 |}
             = ((r : string * option error), {| fs := fs'; events := evs0 ++ evs |})).
  { unfold getApplyDir.
    destruct (negb (String.eqb (KptApplyInventory.Dir (KptLive.Apply (k_Live k))) "")).
    - run_world. destruct (os.IsNotExist _);
        eexists _, _, []; intros evs0; rewrite app_nil_r; reflexivity.
    - run_world. destruct (os.MkdirAll kptHydrated fs0) as [[e|] fs1].
      + eexists _, _, []; intros evs0; rewrite app_nil_r; reflexivity.
      + cbn [fs events]. destruct (os.IsNotExist _).
        * cbv beta iota zeta. cbn [fs events].
          match goal with
          | |- context [runProcess env ?cmd fs1] =>
              destruct (runProcess env cmd fs1) as [[out [e|]] fs2]
          end; eexists _, _, _; intros evs0; reflexivity.
        * eexists _, _, []; intros evs0; rewrite app_nil_r; reflexivity. }
  destruct Hget as ([applyDir [e|]] & fs1 & evs1 & Hget).
  - eexists _, _, _. intros evs0. unfold applyTail. run_world. rewrite Hget. reflexivity.
  - destruct (outputRenderedManifests env (ManifestList_String env manifests)
                (filepath.Join applyDir "resources.yaml") fs1) as [oerr fs2] eqn:Hout.
    destruct (runProcess env
                (CommandContext "kpt"
                   (kptCommandArgs applyDir ["live"; "apply"] (getKptLiveApplyArgs k) []))
                fs2) as [[out [e|]] fs3] eqn:Hrun.
    + eexists _, _, _. intros evs0. unfold applyTail. run_world. rewrite Hget.
      cbv beta iota zeta. cbn [fs events]. rewrite Hout. cbn [fs events]. rewrite Hrun.
      rewrite <- !app_assoc. reflexivity.
    + eexists _, _, _. intros evs0. unfold applyTail. run_world. rewrite Hget.
      cbv beta iota zeta. cbn [fs events]. rewrite Hout. cbn [fs events]. rewrite Hrun.
      rewrite <- !app_assoc. reflexivity.
Qed.

End DeployTail.

Section DeployMore.

Variable env : Collaborators.

Lemma applyTransforms_error transforms manifests builds registries w out err w' :
  applyTransforms transforms manifests builds registries w = ((out, Some err), w') ->
  out = [] /\ exists cause, err = fmt.Errorf "unable to transform manifests" cause.
Proof.
  revert manifests w. induction transforms as [|transform rest IH]; intros manifests w.
  - simpl. run_world. discriminate.
  - simpl. run_world. destruct (transform manifests builds registries) as [m' [cause|]].
    + intros [= <- <- _]. eauto.
    + apply IH.
Qed.

Lemma earlierStages_error k w registry err w' :
  earlierStages env k w = ((registry, Some err), w') ->
  exists msg cause, err = fmt.Errorf msg cause /\ In msg (stageMessages k).
Proof.
  unfold earlierStages, stageMessages. run_world.
  destruct (GetDebugHelpersRegistry env (globalConfig k) (fs w)) as [reg [e|]].
  { intros [= _ <- _]. eexists _, _. split; [reflexivity|]. simpl. auto. }
  destruct (os.RemoveAll _ (fs w)) as [[e|] fs1]; cbn [fs events].
  { intros [= _ <- _]. eexists _, _. split; [reflexivity|]. simpl. auto. }
  destruct (os.MkdirAll _ fs1) as [[e|] fs2].
  { intros [= _ <- _]. eexists _, _. split; [reflexivity|]. simpl. auto. }
  destruct (readConfigs env k _) as [[e|] w3].
  { intros [= _ <- _]. eexists _, _. split; [reflexivity|]. simpl. auto 6. }
  destruct (kustomizeBuild env k w3) as [[e|] w4].
  { intros [= _ <- _]. eexists _, _. split; [reflexivity|]. simpl. auto 6. }
  discriminate.
Qed.

(** An error of [renderManifests] comes with the nil list and is the
    error of a stage wrapped in the message of that stage, with one
    exception: the result of the label injection is returned as it is,
    its error unwrapped and with whatever list comes with it. *)
Theorem renderManifests_error (k : KptDeployer) (builds : list Artifact) (w w' : World)
  (out : ManifestList) (err : error) :
  renderManifests env k builds w = ((out, Some err), w') ->
  (out = [] /\ exists msg cause, err = fmt.Errorf msg cause /\ In msg (stageMessages k))
  \/ exists manifests, SetLabels env manifests (labels k) = (out, Some err).
Proof.
  rewrite renderManifests_stages.
  destruct (earlierStages env k w) as [[registry [e|]] w1] eqn:Hearlier.
  { intros [= <- <- _]. left. split; [reflexivity|].
    eapply earlierStages_error. exact Hearlier. }
  destruct (kptFnRun env k w1) as [[manifests [e|]] w2].
  { intros [= <- <- _]. left. split; [reflexivity|].
    eexists _, _. split; [reflexivity|]. unfold stageMessages. simpl. auto 8. }
  destruct (List.length manifests =? 0)%nat; [discriminate|].
  unfold laterStages. run_world.
  destruct (ExcludeKptFn (lib env) manifests) as [m1 [e|]].
  { intros [= <- <- _]. left. split; [reflexivity|].
    eexists _, _. split; [reflexivity|]. unfold stageMessages. simpl. auto 10. }
  destruct (ReplaceImages env m1 builds) as [m2 [e|]].
  { intros [= <- <- _]. left. split; [reflexivity|].
    eexists _, _. split; [reflexivity|]. unfold stageMessages. simpl. auto 10. }
  match goal with
  | |- context [applyTransforms ?t ?m builds ?r ?w0] =>
      destruct (applyTransforms t m builds r w0) as [[m3 [e|]] w3] eqn:Htr
  end.
  { intros [= <- <- _]. left.
    destruct (applyTransforms_error _ _ _ _ _ _ _ _ Htr) as (_ & cause & ->).
    split; [reflexivity|].
    eexists _, _. split; [reflexivity|]. unfold stageMessages. simpl. auto 12. }
  destruct (SetLabels env m3 (labels k)) as [m4 e4] eqn:Hlabels.
  intros [= <- <- _]. right. exists m3. exact Hlabels.
Qed.

(** When the function-mutation stage returns no document, [Render] still
    writes: it hands the text of the empty list and the output path to
    [outputRenderedManifests] and returns its error, where [Deploy] in the
    same situation returns at once. *)
Theorem Render_empty (k : KptDeployer) (builds : list Artifact) (path : string)
  (w w1 w2 : World) (registry : string) :
  earlierStages env k w = ((registry, None), w1) ->
  kptFnRun env k w1 = (([], None), w2) ->
  Render env k builds path w =
    let '(err, fs') :=
      outputRenderedManifests env (ManifestList_String env []) path (fs w2) in
    (err, {| fs := fs'; events := events w2 ++ [Entered StageOutput] |}).
Proof.
  intros Hearlier Hrun.
  assert (Hrender : renderManifests env k builds w = (([], None), w2)).
  { rewrite renderManifests_stages, Hearlier, Hrun. reflexivity. }
  unfold Render. run_world. rewrite Hrender. cbv beta iota zeta. cbn [fs events].
  destruct (outputRenderedManifests env _ path (fs w2)) as [err fs']. reflexivity.
Qed.

(** A failure to collect the namespaces does not stop a deployment: with
    any error of [CollectNamespaces], [Deploy] returns what it returns
    without that error, leaves the same file system and has started the
    same commands. *)
Theorem Deploy_namespaces_error_ignored (k : KptDeployer) (builds : list Artifact)
  (w : World) (nsErr : option error) :
  let run := Deploy (withNamespacesError env nsErr) k builds w in
  let reference := Deploy (withNamespacesError env None) k builds w in
  fst run = fst reference /\
  fs (snd run) = fs (snd reference) /\
  commands (events (snd run)) = commands (events (snd reference)).
Proof.
  cbv zeta. rewrite !Deploy_tail.
  change (renderManifests (withNamespacesError env nsErr) k builds w)
    with (renderManifests env k builds w).
  change (renderManifests (withNamespacesError env None) k builds w)
    with (renderManifests env k builds w).
  destruct (renderManifests env k builds w) as [[manifests [err|]] w1]; [auto|].
  destruct (List.length manifests =? 0)%nat; [auto|].
  cbn [CollectNamespaces withNamespacesError fst snd].
  change (applyTail (withNamespacesError env nsErr)) with (applyTail env).
  change (applyTail (withNamespacesError env None)) with (applyTail env).
  destruct (applyTail_frame env k manifests (fst (CollectNamespaces env manifests)) (fs w1))
    as (r & fs' & evs & Htail).
  rewrite !Htail. cbn [fst snd fs events]. rewrite !commands_app.
  destruct nsErr; auto.
Qed.

(** [Deploy] does not look at the error of [outputRenderedManifests]:
    when writing resources.yaml fails, the apply command is started all
    the same and the error is lost. *)
Theorem Deploy_output_error_ignored (k : KptDeployer) (builds : list Artifact) (w : World) :
  Deploy (withoutOutputError env) k builds w = Deploy env k builds w.
Proof.
  unfold Deploy. run_world.
  change (renderManifests (withoutOutputError env) k builds w)
    with (renderManifests env k builds w).
  destruct (renderManifests env k builds w) as [[manifests [err|]] w1]; [reflexivity|].
  destruct (List.length manifests =? 0)%nat; [reflexivity|].
  cbn [CollectNamespaces withoutOutputError].
  destruct (CollectNamespaces env manifests) as [namespaces [nsErr|]];
    cbv beta iota zeta; cbn [fs events];
    change (getApplyDir (withoutOutputError env) k) with (getApplyDir env k);
    match goal with
    | |- context [getApplyDir env k ?w0] =>
        destruct (getApplyDir env k w0) as [[applyDir [e|]] w2]; [reflexivity|]
    end;
    cbn [outputRenderedManifests ManifestList_String runProcess withoutOutputError fs events];
    destruct (outputRenderedManifests env _ _ (fs w2)) as [oerr fs3]; reflexivity.
Qed.

(** With manifests to deploy and an explicit apply directory that
    [os.Stat] reports as not existing (ENOENT) after the hydration, [Deploy]
    returns that error wrapped as "getting applyDir"; the file system is as
    the hydration left it, nothing is written and no command is started
    after the hydration.  (An apply directory that is absent in another
    way, below a regular file, is not [missing]: [Deploy] goes on with
    it.) *)
Theorem Deploy_applyDir_missing (k : KptDeployer) (builds : list Artifact) (w w1 : World)
  (manifests : ManifestList) :
  let applyDir := KptApplyInventory.Dir (KptLive.Apply (k_Live k)) in
  renderManifests env k builds w = ((manifests, None), w1) ->
  manifests <> [] ->
  applyDir <> "" ->
  missing applyDir (fs w1) ->
  exists w2,
    Deploy env k builds w
      = (([], Some (fmt.Errorf "getting applyDir" (PathError "stat" applyDir ENOENT))), w2) /\
    fs w2 = fs w1 /\
    commands (events w2) = commands (events w1).
Proof.
  intros applyDir Hrender Hne Hdir Hmiss. subst applyDir.
  unfold Deploy. run_world. rewrite Hrender.
  destruct manifests as [|m rest]; [congruence|]. cbn [List.length Nat.eqb].
  unfold getApplyDir. apply String.eqb_neq in Hdir. rewrite Hdir. cbn [negb].
  unfold missing in Hmiss. run_world. unfold os.Stat.
  destruct (CollectNamespaces env (m :: rest)) as [namespaces [nsErr|]];
    cbv beta iota zeta; cbn [fs events]; rewrite Hmiss; cbn [errOf os.IsNotExist];
    eexists; (split; [reflexivity|]); cbn [fs events]; rewrite !commands_app;
    simpl; rewrite ?app_nil_r; auto.
Qed.

End DeployMore.

Lemma renderManifests_error_witness :
  ([] = ([] : ManifestList) /\
   exists msg cause,
     bothSetError = fmt.Errorf msg cause /\ In msg (stageMessages Sample.bothDeployer))
  \/ exists manifests,
       SetLabels Sample.sampleEnv manifests (labels Sample.bothDeployer)
       = ([], Some bothSetError).
Proof.
  eapply (renderManifests_error Sample.sampleEnv Sample.bothDeployer []
            (Sample.world Sample.emptyFS)).
  reflexivity.
Defined.

Lemma Render_empty_witness :
  Render Sample.sampleEnv Sample.plainDeployer [] "out.yaml" (Sample.world Sample.emptyFS)
  = (None,
     {| fs := {| root := DirNode [("work", DirNode [(".pipeline", DirNode [])])];
                 cwd := ["work"] |};
        events :=
          [Spawned (fnSource Sample.plainDeployer);
           Spawned (fnSink Sample.plainDeployer "");
           Spawned (fnRun ["--dry-run"])]
          ++ [Entered StageOutput] |}).
Proof.
  apply (Render_empty Sample.sampleEnv Sample.plainDeployer [] "out.yaml"
           (Sample.world Sample.emptyFS)
           {| fs := {| root := DirNode [("work", DirNode [(".pipeline", DirNode [])])];
                       cwd := ["work"] |};
              events := [Spawned (fnSource Sample.plainDeployer);
                         Spawned (fnSink Sample.plainDeployer "")] |}
           {| fs := {| root := DirNode [("work", DirNode [(".pipeline", DirNode [])])];
                       cwd := ["work"] |};
              events := [Spawned (fnSource Sample.plainDeployer);
                         Spawned (fnSink Sample.plainDeployer "");
                         Spawned (fnRun ["--dry-run"])] |}
           "gcr.io/k8s-skaffold/skaffold-debug-support").
  - reflexivity.
  - reflexivity.
Defined.

Lemma Deploy_applyDir_missing_witness :
  exists w2,
    Deploy Sample.sampleEnv Sample2.functionDeployer [] (Sample.world Sample.functionFS)
      = (([], Some (fmt.Errorf "getting applyDir" (PathError "stat" "invalid_path" ENOENT))),
         w2) /\
    fs w2 = fs (snd (renderManifests Sample.sampleEnv Sample2.functionDeployer []
                       (Sample.world Sample.functionFS))) /\
    commands (events w2)
    = commands (events (snd (renderManifests Sample.sampleEnv Sample2.functionDeployer []
                               (Sample.world Sample.functionFS)))).
Proof.
  apply (Deploy_applyDir_missing Sample.sampleEnv Sample2.functionDeployer []
           (Sample.world Sample.functionFS) _ ["Ta"]).
  - reflexivity.
  - discriminate.
  - discriminate.
  - reflexivity.
Defined.

(** *** The kpt live commands *)

Lemma kptCommandArgs_flat dir commands flags :
  spaceFree commands -> spaceFree flags ->
  kptCommandArgs dir commands flags [] =
    commands ++ (if nonEmpty dir then [dir] else []) ++ flags.
Proof.
  intros Hc Hf. unfold kptCommandArgs. rewrite !appendSplit_flat_map.
  destruct (nonEmpty dir); rewrite ?appendSplit_flat_map;
    rewrite (flat_map_Split_spaceFree _ Hc), (flat_map_Split_spaceFree _ Hf);
    simpl; rewrite ?app_nil_r, <- ?app_assoc; reflexivity.
Qed.

(** The command that initializes the inventory: with override values
    without spaces its arguments are live, init, .kpt-hydrated, then
    --inventory-id and its value when it is set, then --namespace and its
    value when it is set. *)
Theorem liveInit_args (k : KptDeployer) :
  let apply := KptLive.Apply (k_Live k) in
  spaceFree [KptApplyInventory.InventoryID apply;
             KptApplyInventory.InventoryNamespace apply] ->
  Path (liveInit k) = "kpt" /\
  Args (liveInit k) =
    ["live"; "init"; ".kpt-hydrated"]
    ++ optionalFlag "--inventory-id" (KptApplyInventory.InventoryID apply)
    ++ optionalFlag "--namespace" (KptApplyInventory.InventoryNamespace apply).
Proof.
  intros apply Hfree. subst apply. split; [reflexivity|].
  inversion Hfree as [|? ? Hid Hrest]; subst. inversion Hrest as [|? ? Hns _]; subst.
  unfold liveInit, CommandContext, Args. rewrite kptCommandArgs_flat.
  - unfold getKptLiveInitArgs, optionalFlag.
    destruct (nonEmpty (KptApplyInventory.InventoryID _)),
      (nonEmpty (KptApplyInventory.InventoryNamespace _)); reflexivity.
  - repeat constructor.
  - unfold getKptLiveInitArgs.
    destruct (nonEmpty (KptApplyInventory.InventoryID _)),
      (nonEmpty (KptApplyInventory.InventoryNamespace _)); repeat constructor; assumption.
Qed.

Lemma liveInit_args_witness :
  Path (liveInit Sample2.inventoryDeployer) = "kpt" /\
  Args (liveInit Sample2.inventoryDeployer) =
    ["live"; "init"; ".kpt-hydrated"]
    ++ optionalFlag "--inventory-id" "1a23bcde-4f56-7891-a2bc-de34fabcde5f6"
    ++ optionalFlag "--namespace" "foo".
Proof.
  apply (liveInit_args Sample2.inventoryDeployer). repeat constructor.
Defined.

(** The arguments of the apply command of [Deploy]: with option values
    without spaces they are live, apply, the apply directory, then the
    options that are set, each after its flag, in the order poll period,
    prune propagation policy, prune timeout, reconcile timeout. *)
Theorem liveApply_args (k : KptDeployer) (applyDir : string) :
  let options := KptLive.Options (k_Live k) in
  spaceFree [KptApplyOptions.PollPeriod options;
             KptApplyOptions.PrunePropagationPolicy options;
             KptApplyOptions.PruneTimeout options;
             KptApplyOptions.ReconcileTimeout options] ->
  kptCommandArgs applyDir ["live"; "apply"] (getKptLiveApplyArgs k) [] =
    ["live"; "apply"] ++ (if nonEmpty applyDir then [applyDir] else [])
    ++ optionalFlag "--poll-period" (KptApplyOptions.PollPeriod options)
    ++ optionalFlag "--prune-propagation-policy"
         (KptApplyOptions.PrunePropagationPolicy options)
    ++ optionalFlag "--prune-timeout" (KptApplyOptions.PruneTimeout options)
    ++ optionalFlag "--reconcile-timeout" (KptApplyOptions.ReconcileTimeout options).
Proof.
  intros options Hfree. subst options.
  inversion Hfree as [|? ? H1 Hr1]; subst. inversion Hr1 as [|? ? H2 Hr2]; subst.
  inversion Hr2 as [|? ? H3 Hr3]; subst. inversion Hr3 as [|? ? H4 _]; subst.
  rewrite kptCommandArgs_flat.
  - unfold getKptLiveApplyArgs, optionalFlag.
    destruct (nonEmpty (KptApplyOptions.PollPeriod _)),
      (nonEmpty (KptApplyOptions.PrunePropagationPolicy _)),
      (nonEmpty (KptApplyOptions.PruneTimeout _)),
      (nonEmpty (KptApplyOptions.ReconcileTimeout _)); reflexivity.
  - repeat constructor.
  - unfold getKptLiveApplyArgs.
    destruct (nonEmpty (KptApplyOptions.PollPeriod _)),
      (nonEmpty (KptApplyOptions.PrunePropagationPolicy _)),
      (nonEmpty (KptApplyOptions.PruneTimeout _)),
      (nonEmpty (KptApplyOptions.ReconcileTimeout _)); repeat constructor; assumption.
Qed.

Lemma liveApply_args_witness :
  kptCommandArgs "valid_path" ["live"; "apply"]
    (getKptLiveApplyArgs
       (Sample.deployer "." Sample.noFn
          {| KptLive.Apply := KptLive.Apply Sample.noLive;
             KptLive.Options :=
               {| KptApplyOptions.PollPeriod := "5s";
                  KptApplyOptions.PrunePropagationPolicy := "";
                  KptApplyOptions.PruneTimeout := "";
                  KptApplyOptions.ReconcileTimeout := "2m" |} |})) []
  = ["live"; "apply"] ++ ["valid_path"]
    ++ optionalFlag "--poll-period" "5s"
    ++ optionalFlag "--prune-propagation-policy" ""
    ++ optionalFlag "--prune-timeout" ""
    ++ optionalFlag "--reconcile-timeout" "2m".
Proof.
  apply (liveApply_args
           (Sample.deployer "." Sample.noFn
              {| KptLive.Apply := KptLive.Apply Sample.noLive;
                 KptLive.Options :=
                   {| KptApplyOptions.PollPeriod := "5s";
                      KptApplyOptions.PrunePropagationPolicy := "";
                      KptApplyOptions.PruneTimeout := "";
                      KptApplyOptions.ReconcileTimeout := "2m" |} |})
           "valid_path").
  repeat constructor.
Defined.
